(** * core/runjob.go: the run-job executor of ofelia

    A shallow embedding of [core/runjob.go]: the specification parsers
    ([parseVolumeSpec], [parseEnvSpecs], [parseEnvsFromFiles]), the
    provisioner ([pullImage], [buildContainer], [getContainer]), the
    supervisor ([startContainer], [watchContainer]) and the reaper
    ([deleteContainer]), tied together by [Run].

    Go strings are [string], slices are lists (a nil slice and an empty
    slice are both [[]]), [int] and [time.Duration] are [Z].  Calls on the
    Docker client are steps of a state monad that threads the state of the
    engine behind the client and records every call that is made. *)

From Stdlib Require Import ZArith List String Ascii Bool Lia.
Import ListNotations.
Open Scope string_scope.
Open Scope list_scope.
Open Scope Z_scope.

(** ** Errors *)

(** Go's [error] values of this file.  The two sentinels are package
    variables declared next to [runjob.go]; every [fmt.Errorf] site is a
    constructor that holds the arguments of its format string; an error
    handed back by the Docker client or by the file system is opaque. *)
Inductive error : Type :=
| ErrMaxTimeRunning
| ErrUnexpected
| ErrPullingImage (image : string) (cause : error)
    (* "error pulling image %q: %s" *)
| ErrParsingVolumesSeparator
    (* "error parsing volumes - volume specs should be comma separated" *)
| ErrParsingVolumeSpec (specs : string)
    (* "error parsing volume spec '%s' - required format is from_path:to_path" *)
| ErrParsingEnv (env : string)
    (* "error parsing env '%s' - required format is KEY=value" *)
| ErrParsingEnvFiles (cause : error)
    (* "error parsing env files: %s" *)
| ErrParsingVolumes (cause : error)
    (* "error parsing volumes: %s" *)
| ErrCreatingExec (cause : error)
    (* "error creating exec: %s" *)
| ErrConnectingNetwork (cause : error)
    (* "error connecting container to network: %s" *)
| ErrNonZeroExitCode (code : Z)
    (* "error non-zero exit code: %d" *)
| ClientError (msg : string)
| FileError (msg : string).

(** A Go pair [(value, error)] of which exactly one side is used. *)
Inductive result (A : Type) : Type :=
| Ok (a : A)
| Err (e : error).
Arguments Ok {A} a.
Arguments Err {A} e.

(** ** strings.Split *)

(** [strings.Split(s, sep)] for a separator of one byte, which is what every
    call in this file passes ([","], [":"] and ["="]).  The slice it returns
    has one more element than [s] has separators: it is never empty. *)
Fixpoint Split (s : string) (sep : ascii) : list string :=
  match s with
  | EmptyString => [EmptyString]
  | String a s' =>
      if Ascii.eqb a sep then EmptyString :: Split s' sep
      else match Split s' sep with
           | h :: t => String a h :: t
           | [] => [String a EmptyString]
           end
  end.

(** [strings.Join], the inverse of [Split]. *)
Fixpoint Join (l : list string) (sep : ascii) : string :=
  match l with
  | [] => EmptyString
  | [x] => x
  | x :: rest => (x ++ String sep (Join rest sep))%string
  end.

(** Number of occurrences of a byte in a string. *)
Fixpoint count_byte (c : ascii) (s : string) : nat :=
  match s with
  | EmptyString => O
  | String a s' => (if Ascii.eqb a c then 1 else 0) + count_byte c s'
  end.

(** ** Data *)

(** [Volume], declared elsewhere in the package: the two paths that
    [parseVolumeSpec] fills in. *)
Record Volume : Type := { From : string; To : string }.

Record Mount : Type := { Source : string; Destination : string; RW : bool }.

Record State : Type := { Running : bool; ExitCode : Z }.

Record Container : Type := { ID : string; ContainerState : State }.

Record Network : Type := { NetworkID : string }.

(** [docker.Config], the fields that [buildContainer] sets. *)
Record Config : Type := {
  ConfigImage : string;
  AttachStdin : bool;
  AttachStdout : bool;
  AttachStderr : bool;
  Tty : bool;
  Cmd : list string;
  ConfigUser : string;
  Env : list string;
  Mounts : list Mount
}.

(** [docker.RemoveContainerOptions] of go-dockerclient has the fields [ID],
    [RemoveVolumes] and [Force]; a field that a Go struct literal leaves out
    has its zero value. *)
Record RemoveContainerOptions : Type := {
  RemoveID : string;
  RemoveVolumes : bool;
  Force : bool
}.

(** [RunJob], with [Command] from the embedded [BareJob]. *)
Record RunJob : Type := {
  Command : string;
  User : string;
  TTY : bool;
  Delete : bool;
  Image : string;
  JobNetwork : string;
  JobContainer : string;
  Volumes : string;
  JobEnv : string;
  EnvFiles : string
}.

(** ** Spec parser *)

(** The [for] loop of [parseVolumeSpec], [volumes] being the slice built so
    far. *)
Fixpoint parseVolumeSpec_loop (volSpecList : list string)
    (volumes : list Volume) : result (list Volume) :=
  match volSpecList with
  | [] => Ok volumes
  | specs :: rest =>
      let spec := Split specs ":" in
      if Nat.eqb (List.length spec) 0 then parseVolumeSpec_loop rest volumes
      else if negb (Nat.eqb (List.length spec) 2) then Err (ErrParsingVolumeSpec specs)
      else parseVolumeSpec_loop rest
             (volumes ++ [{| From := nth 0 spec ""; To := nth 1 spec "" |}])
  end.

Definition parseVolumeSpec (volumeSpec : string) : result (list Volume) :=
  let volSpecList := Split volumeSpec "," in
  if Nat.eqb (List.length volSpecList) 0 then Err ErrParsingVolumesSeparator
  else parseVolumeSpec_loop volSpecList [].

(** The [for] loop of [parseEnvSpecs], [envs] being the slice built so far. *)
Fixpoint parseEnvSpecs_loop (envSpecs : list string) (envs : list string)
    : result (list string) :=
  match envSpecs with
  | [] => Ok envs
  | env :: rest =>
      let spec := Split env "=" in
      if Nat.ltb 0 (List.length spec) then parseEnvSpecs_loop rest envs
      else if Nat.ltb 2 (List.length spec) then Err (ErrParsingEnv env)
      else parseEnvSpecs_loop rest (envs ++ [env])
  end.

Definition parseEnvSpecs (envSpecs : list string) : result (list string) :=
  parseEnvSpecs_loop envSpecs [].

(** ** The Docker client *)

(** A Go pair [( *docker.Container, error)] as [CreateContainer] and
    [buildContainer] return it: with a nil error the container is there; with
    an error the pointer travels along and may be nil. *)
Inductive built : Type :=
| Returned (c : Container)
| Failed (c : option Container) (e : error).

(** What [Run] does to the outside world, one constructor per operation, with
    the arguments the code passes. *)
Inductive Call : Type :=
| CallSleep (d : Z)
| CallPullImage (image : string)
| CallCreateContainer (config : Config)
| CallFilteredListNetworks (name : string)
| CallConnectNetwork (networkID : string) (container : string)
| CallStartContainer (id : string)
| CallInspectContainer (id : string)
| CallRemoveContainer (opts : RemoveContainerOptions).

(** The engine behind [j.Client], as a deterministic machine over a state [D]
    of its own.  [PullImage] receives the image name, from which
    [buildPullOptions] (not part of this file) computes the options and the
    credentials; [CreateContainer] receives the [Config] of its options,
    whose [NetworkingConfig] is always empty; [FilteredListNetworks]
    receives the name put under the
    ["name"] filter; [ConnectNetwork] the network and the container
    identifier; [StartContainer] is always called with an empty
    [HostConfig].  A client call that returns no error returns its value.
    [Sleep] is what the passing of that much time does to the engine. *)
Record Client (D : Type) : Type := {
  PullImage : string -> D -> option error * D;
  CreateContainer : Config -> D -> built * D;
  FilteredListNetworks : string -> D -> result (list Network) * D;
  ConnectNetwork : string -> string -> D -> option error * D;
  StartContainer : string -> D -> option error * D;
  InspectContainer : string -> D -> result Container * D;
  RemoveContainer : RemoveContainerOptions -> D -> option error * D;
  Sleep : Z -> D -> D
}.
Arguments PullImage {D}.
Arguments CreateContainer {D}.
Arguments FilteredListNetworks {D}.
Arguments ConnectNetwork {D}.
Arguments StartContainer {D}.
Arguments InspectContainer {D}.
Arguments RemoveContainer {D}.
Arguments Sleep {D}.

(** The state threaded through a run: the engine and the calls made so far,
    oldest first. *)
Record World (D : Type) : Type := { engine : D; calls : list Call }.
Arguments engine {D}.
Arguments calls {D}.

(** ** Durations *)

(** [time.Duration] counts nanoseconds in an [int64]. *)
Definition Millisecond : Z := 1000000.
Definition Hour : Z := 3600000000000.

Definition watchDuration : Z := Millisecond * 100.
Definition maxProcessDuration : Z := Hour * 24.

(** Two's complement wrap-around of a 64-bit signed integer. *)
Definition int64 (z : Z) : Z := (z + 2 ^ 63) mod 2 ^ 64 - 2 ^ 63.

Section Model.

Context {D : Type}.
Variable client : Client D.

(** [args.GetArgs] of gobs/args, the shell tokenizer. *)
Variable GetArgs : string -> list string.

(** What [readLines] finds in the file system: the lines of the file, or the
    error of opening or scanning it. *)
Variable readLines : string -> result (list string).

(** ** The monad of a run *)

(** [None] is a computation that was cut off before it returned. *)
Definition M (A : Type) : Type := World D -> option (A * World D).

Definition ret {A : Type} (a : A) : M A := fun w => Some (a, w).

Definition bind {A B : Type} (m : M A) (k : A -> M B) : M B :=
  fun w => match m w with
           | Some (a, w') => k a w'
           | None => None
           end.

Definition cut_off {A : Type} : M A := fun _ => None.

(** One call: the engine answers and moves on, the call is recorded. *)
Definition call {R : Type} (c : Call) (h : D -> R * D) : M R :=
  fun w => let (r, d) := h (engine w) in
           Some (r, {| engine := d; calls := calls w ++ [c] |}).

Notation "x <- m ;; k" := (bind m (fun x => k))
  (at level 61, m at next level, right associativity).

Definition time_Sleep (d : Z) : M unit :=
  call (CallSleep d) (fun e => (tt, Sleep client d e)).

(** ** Provisioner *)

Definition pullImage (j : RunJob) : M (option error) :=
  perr <- call (CallPullImage (Image j)) (PullImage client (Image j)) ;;
  match perr with
  | Some err => ret (Some (ErrPullingImage (Image j) err))
  | None => ret None
  end.

(** The [for] loop of [parseEnvsFromFiles] over the split [envFiles]. *)
Fixpoint parseEnvsFromFiles_loop (files : list string) (envs : list string)
    : result (list string) :=
  match files with
  | [] => Ok envs
  | file :: rest =>
      match readLines file with
      | Err err => Err err
      | Ok lines =>
          match parseEnvSpecs lines with
          | Err err => Err err
          | Ok es => parseEnvsFromFiles_loop rest (envs ++ es)
          end
      end
  end.

Definition parseEnvsFromFiles (envFiles : string) : result (list string) :=
  parseEnvsFromFiles_loop (Split envFiles ",") [].

(** [buildContainer] up to its first client call: the environment, the
    mounts and the [docker.Config] literal. *)
Definition buildContainer_config (j : RunJob) : result Config :=
  let envs : list string := [] in
  match (if negb (JobEnv j =? "")%string then
           match parseEnvSpecs (Split (JobEnv j) ",") with
           | Err err => Err (ErrParsingEnvFiles err)
           | Ok es => Ok (envs ++ es)
           end
         else Ok envs) with
  | Err err => Err err
  | Ok envs =>
  match (if negb (EnvFiles j =? "")%string then
           match parseEnvsFromFiles (EnvFiles j) with
           | Err err => Err (ErrParsingEnvFiles err)
           | Ok envsFromFiles => Ok (envs ++ envsFromFiles)
           end
         else Ok envs) with
  | Err err => Err err
  | Ok envs =>
  let mounts : list Mount := [] in
  match (if negb (Volumes j =? "")%string then
           match parseVolumeSpec (Volumes j) with
           | Err err => Err (ErrParsingVolumes err)
           | Ok volumes =>
               Ok (map (fun v => {| Source := From v;
                                    Destination := To v;
                                    RW := true |}) volumes)
           end
         else Ok mounts) with
  | Err err => Err err
  | Ok mounts =>
      Ok {| ConfigImage := Image j;
            AttachStdin := false;
            AttachStdout := true;
            AttachStderr := true;
            Tty := TTY j;
            Cmd := GetArgs (Command j);
            ConfigUser := User j;
            Env := envs;
            Mounts := mounts |}
  end end end.

(** The [for] loop of [buildContainer] over the networks that were found. *)
Fixpoint connectNetworks (c : Container) (networks : list Network)
    : M (option error) :=
  match networks with
  | [] => ret None
  | network :: rest =>
      cerr <- call (CallConnectNetwork (NetworkID network) (ID c))
                   (ConnectNetwork client (NetworkID network) (ID c)) ;;
      match cerr with
      | Some err => ret (Some err)
      | None => connectNetworks c rest
      end
  end.

Definition buildContainer (j : RunJob) : M built :=
  match buildContainer_config j with
  | Err err => ret (Failed None err)
  | Ok config =>
      b <- call (CallCreateContainer config) (CreateContainer client config) ;;
      match b with
      | Failed c err => ret (Failed c (ErrCreatingExec err))
      | Returned c =>
          if negb (JobNetwork j =? "")%string then
            l <- call (CallFilteredListNetworks (JobNetwork j))
                      (FilteredListNetworks client (JobNetwork j)) ;;
            match l with
            | Ok networks =>
                cerr <- connectNetworks c networks ;;
                match cerr with
                | Some err => ret (Failed (Some c) (ErrConnectingNetwork err))
                | None => ret (Returned c)
                end
            | Err _ => ret (Returned c)
            end
          else ret (Returned c)
      end
  end.

Definition getContainer (j : RunJob) (id : string) : M (result Container) :=
  call (CallInspectContainer id) (InspectContainer client id).

(** ** Supervisor *)

Definition startContainer (j : RunJob) (c : Container) : M (option error) :=
  call (CallStartContainer (ID c)) (StartContainer client (ID c)).

(** The [for] loop of [watchContainer]; [r] is the time slept so far and the
    result is the state [s] the loop breaks with, or the error it returns
    with.  The loop has no bound of its own: [fuel] counts its rounds. *)
Fixpoint watchContainer_loop (fuel : nat) (containerID : string) (r : Z)
    : M (result State) :=
  match fuel with
  | O => cut_off
  | S fuel' =>
      _ <- time_Sleep watchDuration ;;
      let r := int64 (r + watchDuration) in
      if r >? maxProcessDuration then ret (Err ErrMaxTimeRunning)
      else
        i <- call (CallInspectContainer containerID)
                  (InspectContainer client containerID) ;;
        match i with
        | Err err => ret (Err err)
        | Ok c =>
            if negb (Running (ContainerState c)) then ret (Ok (ContainerState c))
            else watchContainer_loop fuel' containerID r
        end
  end.

(** The number of sleeps that fit under the ceiling, and one round more:
    more rounds than the loop can make before [r] exceeds the ceiling. *)
Definition max_polls : nat := Z.to_nat (maxProcessDuration / watchDuration).

Definition watch_rounds : nat := S max_polls.

(** The [switch] of [watchContainer] on the exit code. *)
Definition exitError (s : State) : option error :=
  if ExitCode s =? 0 then None
  else if ExitCode s =? -1 then Some ErrUnexpected
  else Some (ErrNonZeroExitCode (ExitCode s)).

Definition watchContainer (j : RunJob) (containerID : string)
    : M (option error) :=
  l <- watchContainer_loop watch_rounds containerID 0 ;;
  match l with
  | Err err => ret (Some err)
  | Ok s => ret (exitError s)
  end.

(** ** Reaper *)

Definition deleteContainer (j : RunJob) (containerID : string)
    : M (option error) :=
  if negb (Delete j) then ret None
  else
    let opts := {| RemoveID := containerID;
                   RemoveVolumes := false;
                   Force := false |} in
    call (CallRemoveContainer opts) (RemoveContainer client opts).

(** ** Run *)

(** The first [if] of [Run]: the container to run, built from the image or
    looked up by its identifier. *)
Definition Run_provision (j : RunJob) : M (result Container) :=
  if negb (Image j =? "")%string && (JobContainer j =? "")%string then
    perr <- pullImage j ;;
    match perr with
    | Some err => ret (Err err)
    | None =>
        b <- buildContainer j ;;
        match b with
        | Failed _ err => ret (Err err)
        | Returned container => ret (Ok container)
        end
    end
  else getContainer j (JobContainer j).

(** The middle of [Run]: start the container, then watch it. *)
Definition Run_supervise (j : RunJob) (container : Container)
    : M (option error) :=
  serr <- startContainer j container ;;
  match serr with
  | Some err => ret (Some err)
  | None => watchContainer j (ID container)
  end.

Definition Run (j : RunJob) : M (option error) :=
  p <- Run_provision j ;;
  match p with
  | Err err => ret (Some err)
  | Ok container =>
      serr <- Run_supervise j container ;;
      match serr with
      | Some err => ret (Some err)
      | None =>
          if (JobContainer j =? "")%string
          then deleteContainer j (ID container)
          else ret None
      end
  end.

End Model.

Arguments M D A : clear implicits.

(** ** The vocabulary of the specification *)

Inductive ExecutionOutcome : Type :=
| Succeeded
| TimedOut
| KilledOrUnexpected
| FailedWithCode (code : Z).

(** The outcome that an error returned by [watchContainer] stands for; an
    error of the client is none of them. *)
Definition outcome (e : option error) : option ExecutionOutcome :=
  match e with
  | None => Some Succeeded
  | Some ErrMaxTimeRunning => Some TimedOut
  | Some ErrUnexpected => Some KilledOrUnexpected
  | Some (ErrNonZeroExitCode n) => Some (FailedWithCode n)
  | Some _ => None
  end.

(** A volume entry is accepted when splitting it on [':'] gives exactly two
    parts. *)
Definition entry_ok (e : string) : bool :=
  Nat.eqb (List.length (Split e ":")) 2.

(** A volume entry as the specification wants it: two parts, none empty. *)
Definition entry_strict (e : string) : bool :=
  match Split e ":" with
  | [a; b] => negb (a =? "")%string && negb (b =? "")%string
  | _ => false
  end.

(** The rule of the specification for [parseVolumeSpec]: a volume
    specification with an entry that is not strict is rejected. *)
Definition rejects_unless_strict (volumeSpec : string) : Prop :=
  forallb entry_strict (Split volumeSpec ",") = false ->
  exists err, parseVolumeSpec volumeSpec = Err err.

(** The entry a mount was parsed from. *)
Definition volume_entry (v : Volume) : string :=
  (From v ++ String ":" (To v))%string.

Definition is_remove (c : Call) : bool :=
  match c with CallRemoveContainer _ => true | _ => false end.

(** The classification of an exit code, in the words of the specification. *)
Definition spec_classify (code : Z) : ExecutionOutcome :=
  match code with
  | 0 => Succeeded
  | -1 => KilledOrUnexpected
  | n => FailedWithCode n
  end.

Definition is_pull (c : Call) : bool :=
  match c with CallPullImage _ => true | _ => false end.

Definition is_create (c : Call) : bool :=
  match c with CallCreateContainer _ => true | _ => false end.

(** The calls that provisioning makes, and those of the supervisor. *)
Definition is_provision (c : Call) : bool :=
  match c with
  | CallPullImage _ | CallCreateContainer _ | CallFilteredListNetworks _
  | CallConnectNetwork _ _ | CallInspectContainer _ => true
  | _ => false
  end.

Definition is_supervise (c : Call) : bool :=
  match c with
  | CallStartContainer _ | CallSleep _ | CallInspectContainer _ => true
  | _ => false
  end.

(** The calls of [n] rounds of the poll loop on a running container. *)
Definition poll_rounds (containerID : string) (n : nat) : list Call :=
  List.concat (repeat [CallSleep watchDuration; CallInspectContainer containerID] n).

(** The time that a list of calls sleeps. *)
Fixpoint slept (cs : list Call) : Z :=
  match cs with
  | [] => 0
  | CallSleep d :: rest => d + slept rest
  | _ :: rest => slept rest
  end.

Section Observations.

Context {D : Type}.
Variable client : Client D.
Variable GetArgs : string -> list string.
Variable readLines : string -> result (list string).

(** [stops_after id n d s d']: from the engine state [d], polled once every
    [watchDuration], the container is seen running [n - 1] times and then, at
    the [n]-th inspect, stopped in state [s]; the engine is left in [d']. *)
Inductive stops_after (containerID : string) : nat -> D -> State -> D -> Prop :=
| stops_now d c d' :
    InspectContainer client containerID (Sleep client watchDuration d) = (Ok c, d') ->
    Running (ContainerState c) = false ->
    stops_after containerID 1 d (ContainerState c) d'
| stops_later n d c d1 s d' :
    InspectContainer client containerID (Sleep client watchDuration d) = (Ok c, d1) ->
    Running (ContainerState c) = true ->
    stops_after containerID n d1 s d' ->
    stops_after containerID (S n) d s d'.

(** [keeps_running id n d d']: from the engine state [d], polled once every
    [watchDuration], the container is seen running at each of [n] inspects;
    the engine is left in [d']. *)
Inductive keeps_running (containerID : string) : nat -> D -> D -> Prop :=
| keeps_running_O d : keeps_running containerID 0 d d
| keeps_running_S n d c d1 d' :
    InspectContainer client containerID (Sleep client watchDuration d) = (Ok c, d1) ->
    Running (ContainerState c) = true ->
    keeps_running containerID n d1 d' ->
    keeps_running containerID (S n) d d'.

(** The container never reports that it is not running, whatever the state
    of the engine. *)
Definition always_running (containerID : string) : Prop :=
  forall d, exists c d',
    InspectContainer client containerID d = (Ok c, d')
    /\ Running (ContainerState c) = true.

(** [connect_fails cid networks d err]: connecting [cid] to the networks in
    turn, from the engine state [d], the first connection that fails does so
    with [err]. *)
Inductive connect_fails (cid : string) : list Network -> D -> error -> Prop :=
| connect_fails_here network rest d err d' :
    ConnectNetwork client (NetworkID network) cid d = (Some err, d') ->
    connect_fails cid (network :: rest) d err
| connect_fails_later network rest d d' err :
    ConnectNetwork client (NetworkID network) cid d = (None, d') ->
    connect_fails cid rest d' err ->
    connect_fails cid (network :: rest) d err.

(** The run got past the supervisor: provisioning, start and watch all
    returned without an error. *)
Definition Run_succeeded (j : RunJob) (w : World D) : bool :=
  match Run_provision client GetArgs readLines j w with
  | Some (Ok container, w1) =>
      match Run_supervise client j container w1 with
      | Some (None, _) => true
      | _ => false
      end
  | _ => false
  end.

(** The rule of the specification for the reaper: when [Run] has returned,
    a remove was issued exactly when no container identifier was supplied
    and the delete flag is set. *)
Definition reaps_iff_owned_and_delete (j : RunJob) (w : World D) : Prop :=
  forall res w',
    Run client GetArgs readLines j w = Some (res, w') ->
    (existsb is_remove (skipn (List.length (calls w)) (calls w')) = true
     <-> JobContainer j = "" /\ Delete j = true).

(** The rule of the specification for a job with neither an image nor a
    container: [Run] returns an error and has called nothing. *)
Definition rejects_before_any_call (j : RunJob) (w : World D) : Prop :=
  exists err w',
    Run client GetArgs readLines j w = Some (Some err, w')
    /\ calls w' = calls w.

(** The rule of the specification for the removal: every remove that
    [deleteContainer] issues is forced. *)
Definition removes_forced (j : RunJob) (containerID : string) (w : World D)
    : Prop :=
  forall res w' opts,
    deleteContainer client j containerID w = Some (res, w') ->
    In (CallRemoveContainer opts) (calls w') ->
    Force opts = true.

(** [runs P m]: from every world [m] returns, and every call it makes
    satisfies [P]. *)
Definition runs {A : Type} (P : Call -> Prop) (m : M D A) : Prop :=
  forall w, exists a w' new,
    m w = Some (a, w') /\ calls w' = calls w ++ new /\ Forall P new.

End Observations.

(** ** Engines to run the model on *)

(** An engine that answers from a script; its state is the time that has
    passed, and what an inspect finds depends on it. *)
Record Script : Type := {
  pull_reply : option error;
  create_reply : built;
  networks_reply : result (list Network);
  connect_reply : option error;
  start_reply : option error;
  inspect_reply : string -> Z -> result Container;
  remove_reply : option error
}.

Definition scripted (s : Script) : Client Z := {|
  PullImage := fun _ t => (pull_reply s, t);
  CreateContainer := fun _ t => (create_reply s, t);
  FilteredListNetworks := fun _ t => (networks_reply s, t);
  ConnectNetwork := fun _ _ t => (connect_reply s, t);
  StartContainer := fun _ t => (start_reply s, t);
  InspectContainer := fun id t => (inspect_reply s id t, t);
  RemoveContainer := fun _ t => (remove_reply s, t);
  Sleep := fun d t => t + d
|}.

(** A container that stops with [code] once [after] nanoseconds have
    passed. *)
Definition exits (after code : Z) (id : string) (t : Z) : result Container :=
  Ok {| ID := id;
        ContainerState := {| Running := t <? after;
                             ExitCode := if t <? after then 0 else code |} |}.

Definition never_exits (id : string) (t : Z) : result Container :=
  Ok {| ID := id; ContainerState := {| Running := true; ExitCode := 0 |} |}.

Definition fresh : Container :=
  {| ID := "c1"; ContainerState := {| Running := false; ExitCode := 0 |} |}.

(** Everything succeeds; the container exits with [code] after 250 ms. *)
Definition happy (code : Z) : Script := {|
  pull_reply := None;
  create_reply := Returned fresh;
  networks_reply := Ok [{| NetworkID := "n1" |}];
  connect_reply := None;
  start_reply := None;
  inspect_reply := exits (250 * Millisecond) code;
  remove_reply := None
|}.

(** The container never stops. *)
Definition stuck : Script := {|
  pull_reply := None;
  create_reply := Returned fresh;
  networks_reply := Ok [];
  connect_reply := None;
  start_reply := None;
  inspect_reply := never_exits;
  remove_reply := None
|}.

(** The network is found, connecting to it is refused. *)
Definition refusing : Script := {|
  pull_reply := None;
  create_reply := Returned fresh;
  networks_reply := Ok [{| NetworkID := "n1" |}];
  connect_reply := Some (ClientError "connection refused");
  start_reply := None;
  inspect_reply := exits (250 * Millisecond) 0;
  remove_reply := None
|}.

(** Listing the networks fails. *)
Definition unlisted : Script := {|
  pull_reply := None;
  create_reply := Returned fresh;
  networks_reply := Err (ClientError "cannot list networks");
  connect_reply := None;
  start_reply := None;
  inspect_reply := exits (250 * Millisecond) 0;
  remove_reply := None
|}.

(** No container is known under any identifier. *)
Definition lost : Script := {|
  pull_reply := None;
  create_reply := Returned fresh;
  networks_reply := Ok [];
  connect_reply := None;
  start_reply := None;
  inspect_reply := fun _ _ => Err (ClientError "No such container");
  remove_reply := None
|}.

Definition start_world : World Z := {| engine := 0; calls := [] |}.

Definition words (s : string) : list string := Split s " ".

Definition no_files (path : string) : result (list string) :=
  Err (FileError path).

Definition job : RunJob := {|
  Command := "echo foo";
  User := "root";
  TTY := false;
  Delete := true;
  Image := "test-image";
  JobNetwork := "";
  JobContainer := "";
  Volumes := "";
  JobEnv := "";
  EnvFiles := ""
|}.

(** [job] on the network ["foo"], and what it is created with. *)
Definition job_on_network : RunJob := {|
  Command := "echo foo";
  User := "root";
  TTY := false;
  Delete := true;
  Image := "test-image";
  JobNetwork := "foo";
  JobContainer := "";
  Volumes := "/data:/data";
  JobEnv := "KEY1=val1,KEY2=val2";
  EnvFiles := ""
|}.

Definition job_on_network_config : Config := {|
  ConfigImage := "test-image";
  AttachStdin := false;
  AttachStdout := true;
  AttachStderr := true;
  Tty := false;
  Cmd := ["echo"; "foo"];
  ConfigUser := "root";
  Env := [];
  Mounts := [{| Source := "/data"; Destination := "/data"; RW := true |}]
|}.

(** A job with neither an image nor a container identifier. *)
Definition job_neither : RunJob := {|
  Command := "echo foo";
  User := "root";
  TTY := false;
  Delete := true;
  Image := "";
  JobNetwork := "";
  JobContainer := "";
  Volumes := "";
  JobEnv := "";
  EnvFiles := ""
|}.

Definition stopped (code : Z) : State := {| Running := false; ExitCode := code |}.

(** ** Further observations *)

(** A path that can stand in a volume specification: it holds no [':'] and
    no [',']. *)
Definition clean_path (p : string) : bool :=
  Nat.eqb (count_byte ":" p) 0 && Nat.eqb (count_byte "," p) 0.

Definition clean_volume (v : Volume) : Prop :=
  clean_path (From v) = true /\ clean_path (To v) = true.

(** The mount that [buildContainer] makes of a parsed volume, and the entry
    a mount stands for. *)
Definition mount_of (v : Volume) : Mount :=
  {| Source := From v; Destination := To v; RW := true |}.

Definition mount_entry (m : Mount) : string :=
  (Source m ++ String ":" (Destination m))%string.

Definition is_inspect (c : Call) : bool :=
  match c with CallInspectContainer _ => true | _ => false end.

(** The number of inspects among a list of calls. *)
Definition inspects (cs : list Call) : nat :=
  List.length (filter is_inspect cs).

Section Protocol.

Context {D : Type}.
Variable client : Client D.
Variable readLines : string -> result (list string).

(** The file can be read. *)
Definition readable (file : string) : Prop :=
  exists lines, readLines file = Ok lines.

(** [connects_all cid networks d d']: connecting [cid] to the networks in
    turn, from the engine state [d], succeeds every time and leaves the
    engine in [d']. *)
Inductive connects_all (cid : string) : list Network -> D -> D -> Prop :=
| connects_all_nil d : connects_all cid [] d d
| connects_all_cons network rest d d1 d' :
    ConnectNetwork client (NetworkID network) cid d = (None, d1) ->
    connects_all cid rest d1 d' ->
    connects_all cid (network :: rest) d d'.

(** [polled id d left res d' new]: what the poll loop can do from the engine
    state [d] with [left] nanoseconds under the ceiling: see the container
    stopped, have an inspect fail, or sleep past the ceiling.  [res] is what
    the loop ends with, [d'] the engine it leaves and [new] the calls it
    makes. *)
Inductive polled (containerID : string) (d : D) (left : Z)
    : result State -> D -> list Call -> Prop :=
| polled_stopped n s d' :
    stops_after client containerID n d s d' ->
    Z.of_nat n * watchDuration <= left ->
    polled containerID d left (Ok s) d' (poll_rounds containerID n)
| polled_failed m d1 err d' :
    keeps_running client containerID m d d1 ->
    Z.of_nat (S m) * watchDuration <= left ->
    InspectContainer client containerID (Sleep client watchDuration d1)
    = (Err err, d') ->
    polled containerID d left (Err err) d' (poll_rounds containerID (S m))
| polled_timed_out m d1 :
    keeps_running client containerID m d d1 ->
    Z.of_nat m * watchDuration <= left < Z.of_nat (S m) * watchDuration ->
    polled containerID d left (Err ErrMaxTimeRunning)
      (Sleep client watchDuration d1)
      (poll_rounds containerID m ++ [CallSleep watchDuration]).

End Protocol.

(** The pull is refused. *)
Definition unpullable : Script := {|
  pull_reply := Some (ClientError "pull access denied");
  create_reply := Returned fresh;
  networks_reply := Ok [];
  connect_reply := None;
  start_reply := None;
  inspect_reply := exits (250 * Millisecond) 0;
  remove_reply := None
|}.

(** The creation fails. *)
Definition uncreatable : Script := {|
  pull_reply := None;
  create_reply := Failed None (ClientError "no such image");
  networks_reply := Ok [];
  connect_reply := None;
  start_reply := None;
  inspect_reply := exits (250 * Millisecond) 0;
  remove_reply := None
|}.

(** The start fails. *)
Definition unstartable : Script := {|
  pull_reply := None;
  create_reply := Returned fresh;
  networks_reply := Ok [];
  connect_reply := None;
  start_reply := Some (ClientError "cannot start");
  inspect_reply := exits (250 * Millisecond) 0;
  remove_reply := None
|}.

(** The engine stops answering inspects once 150 ms have passed. *)
Definition fading : Script := {|
  pull_reply := None;
  create_reply := Returned fresh;
  networks_reply := Ok [];
  connect_reply := None;
  start_reply := None;
  inspect_reply := fun id t =>
    if t <? 150 * Millisecond then never_exits id t
    else Err (ClientError "connection lost");
  remove_reply := None
|}.

(** A job on the existing container ["c0"], and another one on it that
    differs in every other field. *)
Definition job_existing : RunJob := {|
  Command := "";
  User := "root";
  TTY := false;
  Delete := true;
  Image := "";
  JobNetwork := "";
  JobContainer := "c0";
  Volumes := "";
  JobEnv := "";
  EnvFiles := ""
|}.

Definition job_existing' : RunJob := {|
  Command := "echo foo";
  User := "nobody";
  TTY := true;
  Delete := false;
  Image := "test-image";
  JobNetwork := "foo";
  JobContainer := "c0";
  Volumes := "/data";
  JobEnv := "novalue";
  EnvFiles := "missing.env"
|}.

(** [job] with a malformed volume specification, and with an environment
    file that is not there. *)
Definition job_bad_volumes : RunJob := {|
  Command := "echo foo";
  User := "root";
  TTY := false;
  Delete := true;
  Image := "test-image";
  JobNetwork := "";
  JobContainer := "";
  Volumes := "/data:/data,/config";
  JobEnv := "";
  EnvFiles := "../common.env"
|}.

Definition job_bad_env_files : RunJob := {|
  Command := "echo foo";
  User := "root";
  TTY := false;
  Delete := true;
  Image := "test-image";
  JobNetwork := "";
  JobContainer := "";
  Volumes := "/data:/data,/config";
  JobEnv := "";
  EnvFiles := "../common.env,../another.env"
|}.

Definition job_config : Config := {|
  ConfigImage := "test-image";
  AttachStdin := false;
  AttachStdout := true;
  AttachStderr := true;
  Tty := false;
  Cmd := ["echo"; "foo"];
  ConfigUser := "root";
  Env := [];
  Mounts := []
|}.

(** A file system with the one file ["../common.env"]. *)
Definition one_file (path : string) : result (list string) :=
  if (path =? "../common.env")%string
  then Ok ["FILE0KEY1=VALUE"; "FILE0KEY2=VALUE"]
  else Err (FileError path).

(** ** strings.Split *)

Lemma Split_length (c : ascii) (s : string) :
  List.length (Split s c) = S (count_byte c s).
Proof.
  induction s as [|a s IH]; simpl; [reflexivity|].
  destruct (Ascii.eqb a c); simpl; [now rewrite IH|].
  destruct (Split s c) as [|h t]; simpl in *; [discriminate|assumption].
Qed.

Lemma Split_not_nil (c : ascii) (s : string) : Split s c <> [].
Proof.
  intros H. pose proof (Split_length c s) as L. rewrite H in L. discriminate.
Qed.

Lemma Join_Split (c : ascii) (s : string) : Join (Split s c) c = s.
Proof.
  induction s as [|a s IH]; simpl; [reflexivity|].
  destruct (Ascii.eqb a c) eqn:E.
  - apply Ascii.eqb_eq in E. subst a.
    destruct (Split s c) as [|h t] eqn:S0; [now apply Split_not_nil in S0|].
    simpl. change (match t with [] => h | _ :: _ => (h ++ String c (Join t c))%string end)
      with (Join (h :: t) c). now rewrite IH.
  - destruct (Split s c) as [|h t] eqn:S0; [now apply Split_not_nil in S0|].
    simpl in *. destruct t; simpl in *; now rewrite <- IH.
Qed.

Lemma Split_two (c : ascii) (s : string) :
  count_byte c s = 1%nat ->
  exists a b, Split s c = [a; b] /\ s = (a ++ String c b)%string.
Proof.
  intros H. pose proof (Split_length c s) as L. rewrite H in L.
  pose proof (Join_Split c s) as J.
  destruct (Split s c) as [|a [|b [|x t]]]; try discriminate.
  exists a, b. split; [reflexivity|]. now rewrite <- J.
Qed.

(** ** Spec parser *)

Lemma parseEnvSpecs_loop_skips (envSpecs envs : list string) :
  parseEnvSpecs_loop envSpecs envs = Ok envs.
Proof.
  revert envs. induction envSpecs as [|env rest IH]; intros envs; simpl.
  - reflexivity.
  - rewrite Split_length. simpl. apply IH.
Qed.

Lemma parseEnvSpecs_empty (envSpecs : list string) :
  parseEnvSpecs envSpecs = Ok [].
Proof. apply parseEnvSpecs_loop_skips. Qed.

Lemma parseVolumeSpec_loop_spec (l : list string) (acc : list Volume) :
  match find (fun e => negb (entry_ok e)) l with
  | Some e => parseVolumeSpec_loop l acc = Err (ErrParsingVolumeSpec e)
  | None => exists vols, parseVolumeSpec_loop l acc = Ok (acc ++ vols)
                         /\ map volume_entry vols = l
  end.
Proof.
  revert acc. induction l as [|e l IH]; intros acc; simpl.
  - exists []. now rewrite app_nil_r.
  - unfold entry_ok at 1. rewrite Split_length. simpl.
    destruct (Nat.eqb (count_byte ":" e) 1) eqn:E; simpl.
    + apply Nat.eqb_eq in E. destruct (Split_two _ _ E) as (a & b & S2 & Es).
      rewrite S2. simpl.
      specialize (IH (acc ++ [{| From := a; To := b |}])).
      destruct (find (fun e => negb (entry_ok e)) l); [assumption|].
      destruct IH as (vols & R & Mv).
      exists ({| From := a; To := b |} :: vols). split.
      * rewrite R. now rewrite <- app_assoc.
      * simpl. rewrite Mv. unfold volume_entry. simpl. now rewrite <- Es.
    + destruct (count_byte ":" e) as [|[|n]]; try discriminate; reflexivity.
Qed.

(** C1, evaluated on the code: [parseEnvSpecs] keeps none of the entries
    ["K1=v1"] and ["K2=v2"], which the specification wants returned in order,
    and accepts ["novalue"], which the specification wants rejected. *)
Theorem parseEnvSpecs_drops_entries :
  parseEnvSpecs ["K1=v1"; "K2=v2"] = Ok []
  /\ parseEnvSpecs ["novalue"] = Ok [].
Proof. split; reflexivity. Qed.

(** C2, amended: [parseVolumeSpec] splits the specification on [','] and
    each entry on [':'].  When some entry does not split in exactly two parts
    the parse fails with the error that names the first such entry;
    otherwise it returns one mount per entry, in the order of the entries,
    each holding the two parts of its entry, either of which may be empty.
    ["/data:/data,/a:/b"] gives the two mounts in that order and ["/data"]
    fails. *)
Theorem parseVolumeSpec_spec :
  (forall volumeSpec : string,
     match find (fun e => negb (entry_ok e)) (Split volumeSpec ",") with
     | Some e => parseVolumeSpec volumeSpec = Err (ErrParsingVolumeSpec e)
     | None =>
         exists volumes,
           parseVolumeSpec volumeSpec = Ok volumes
           /\ map volume_entry volumes = Split volumeSpec ","
     end)
  /\ parseVolumeSpec "/data:/data,/a:/b"
     = Ok [{| From := "/data"; To := "/data" |}; {| From := "/a"; To := "/b" |}]
  /\ parseVolumeSpec "/data" = Err (ErrParsingVolumeSpec "/data").
Proof.
  split; [|split; reflexivity].
  intros volumeSpec. unfold parseVolumeSpec.
  rewrite Split_length. simpl.
  apply (parseVolumeSpec_loop_spec (Split volumeSpec ",") []).
Qed.

(** ** Durations *)

Lemma watchDuration_value : watchDuration = 100000000.
Proof. reflexivity. Qed.

Lemma maxProcessDuration_value : maxProcessDuration = 86400000000000.
Proof. reflexivity. Qed.

Lemma int64_small (z : Z) : - 2 ^ 63 <= z < 2 ^ 63 -> int64 z = z.
Proof.
  intros H. unfold int64. rewrite Z.mod_small; lia.
Qed.

(** Inside the ceiling the accumulated time does not wrap. *)
Lemma int64_elapsed (r : Z) :
  0 <= r <= maxProcessDuration -> int64 (r + watchDuration) = r + watchDuration.
Proof.
  intros H. apply int64_small.
  rewrite watchDuration_value. rewrite maxProcessDuration_value in H. lia.
Qed.

Global Opaque watchDuration maxProcessDuration int64.

Section Proofs.

Context {D : Type}.
Variable client : Client D.
Variable GetArgs : string -> list string.
Variable readLines : string -> result (list string).

(** ** The monad of a run *)

Lemma runs_ret {A : Type} (P : Call -> Prop) (a : A) : runs P (ret (D:=D) a).
Proof.
  intros w. exists a, w, []. rewrite app_nil_r. auto.
Qed.

Lemma runs_bind {A B : Type} (P : Call -> Prop) (m : M D A) (k : A -> M D B) :
  runs P m -> (forall a, runs P (k a)) -> runs P (bind m k).
Proof.
  intros Hm Hk w. destruct (Hm w) as (a & w1 & n1 & E1 & C1 & F1).
  destruct (Hk a w1) as (b & w2 & n2 & E2 & C2 & F2).
  exists b, w2, (n1 ++ n2). unfold bind. rewrite E1. repeat split.
  - assumption.
  - rewrite C2, C1. now rewrite app_assoc.
  - apply Forall_app. auto.
Qed.

Lemma runs_call {R : Type} (P : Call -> Prop) (c : Call) (h : D -> R * D) :
  P c -> runs P (call c h).
Proof.
  intros Pc w. unfold call. destruct (h (engine w)) as [r d].
  exists r, {| engine := d; calls := calls w ++ [c] |}, [c]. auto.
Qed.

(** What a computation that [runs] returns is what it returns. *)
Lemma runs_inv {A : Type} (P : Call -> Prop) (m : M D A) (w : World D)
    (a : A) (w' : World D) :
  runs P m -> m w = Some (a, w') ->
  exists new, calls w' = calls w ++ new /\ Forall P new.
Proof.
  intros Hm E. destruct (Hm w) as (a0 & w0 & new & E0 & C & F).
  rewrite E in E0. injection E0 as <- <-. eauto.
Qed.

(** ** Supervisor: the poll loop *)

(** The loop is total: with more fuel than rounds are left before the
    ceiling, it returns. *)
Lemma watchContainer_loop_runs (P : Call -> Prop) (containerID : string) :
  P (CallSleep watchDuration) ->
  P (CallInspectContainer containerID) ->
  forall (fuel : nat) (r : Z),
    0 <= r <= maxProcessDuration ->
    maxProcessDuration - r < Z.of_nat fuel * watchDuration ->
    runs P (watchContainer_loop client fuel containerID r).
Proof.
  intros Ps Pi. induction fuel as [|fuel IH]; intros r Hr Hf.
  - simpl in Hf. lia.
  - simpl. apply runs_bind; [now apply runs_call|]. intros _.
    rewrite int64_elapsed by assumption.
    destruct (r + watchDuration >? maxProcessDuration) eqn:G.
    + apply runs_ret.
    + apply runs_bind; [now apply runs_call|]. intros [c|err]; [|apply runs_ret].
      destruct (negb (Running (ContainerState c))); [apply runs_ret|].
      rewrite Z.gtb_ltb in G. apply Z.ltb_ge in G.
      pose proof watchDuration_value as W.
      apply IH; lia.
Qed.

Lemma max_polls_value : Z.of_nat max_polls = 864000.
Proof. vm_compute. reflexivity. Qed.

Lemma watch_rounds_enough :
  maxProcessDuration - 0 < Z.of_nat watch_rounds * watchDuration.
Proof.
  unfold watch_rounds. rewrite Nat2Z.inj_succ, max_polls_value.
  rewrite watchDuration_value, maxProcessDuration_value. reflexivity.
Qed.

Lemma watchContainer_runs (P : Call -> Prop) (j : RunJob) (containerID : string) :
  P (CallSleep watchDuration) ->
  P (CallInspectContainer containerID) ->
  runs P (watchContainer client j containerID).
Proof.
  intros Ps Pi. unfold watchContainer. apply runs_bind.
  - apply watchContainer_loop_runs; auto.
    + rewrite maxProcessDuration_value. lia.
    + apply watch_rounds_enough.
  - intros [s|err]; apply runs_ret.
Qed.

(** A container that stops at the [n]-th inspect, within the ceiling, is
    what the loop breaks with. *)
Lemma watchContainer_loop_stops (containerID : string) (n : nat) (d : D)
    (s : State) (d' : D) :
  stops_after client containerID n d s d' ->
  forall (fuel : nat) (r : Z) (cs : list Call),
    (n <= fuel)%nat ->
    0 <= r ->
    r + Z.of_nat n * watchDuration <= maxProcessDuration ->
    watchContainer_loop client fuel containerID r {| engine := d; calls := cs |}
    = Some (Ok s, {| engine := d'; calls := cs ++ poll_rounds containerID n |}).
Proof.
  pose proof watchDuration_value as W.
  induction 1 as [d c d' I R|n d c d1 s d' I R _ IH]; intros fuel r cs Hf Hr Hc.
  - destruct fuel as [|fuel]; [lia|]. simpl.
    unfold bind, time_Sleep, call. simpl.
    rewrite int64_elapsed by lia.
    replace (r + watchDuration >? maxProcessDuration) with false
      by (symmetry; rewrite Z.gtb_ltb; apply Z.ltb_ge; lia).
    simpl. rewrite I. simpl. rewrite R. simpl. unfold ret. unfold poll_rounds. simpl.
    now rewrite <- app_assoc.
  - destruct fuel as [|fuel]; [lia|]. simpl.
    unfold bind, time_Sleep, call. simpl.
    rewrite int64_elapsed by lia.
    replace (r + watchDuration >? maxProcessDuration) with false
      by (symmetry; rewrite Z.gtb_ltb; apply Z.ltb_ge; lia).
    simpl. rewrite I. simpl. rewrite R. simpl.
    rewrite IH by lia.
    unfold poll_rounds. simpl. now rewrite <- !app_assoc.
Qed.

(** A container that keeps running is polled until the accumulated time
    passes the ceiling. *)
Lemma watchContainer_loop_times_out (containerID : string) (m : nat)
    (d d' : D) :
  keeps_running client containerID m d d' ->
  forall (fuel : nat) (r : Z) (cs : list Call),
    (m < fuel)%nat ->
    0 <= r ->
    r + Z.of_nat m * watchDuration <= maxProcessDuration ->
    maxProcessDuration < r + Z.of_nat (S m) * watchDuration ->
    watchContainer_loop client fuel containerID r {| engine := d; calls := cs |}
    = Some (Err ErrMaxTimeRunning,
            {| engine := Sleep client watchDuration d';
               calls := cs ++ poll_rounds containerID m
                           ++ [CallSleep watchDuration] |}).
Proof.
  pose proof watchDuration_value as W.
  induction 1 as [d|m d c d1 d' I R _ IH]; intros fuel r cs Hf Hr Hle Hgt.
  - destruct fuel as [|fuel]; [lia|]. simpl.
    unfold bind, time_Sleep, call. simpl.
    rewrite int64_elapsed by lia.
    replace (r + watchDuration >? maxProcessDuration) with true
      by (symmetry; rewrite Z.gtb_ltb; apply Z.ltb_lt; lia).
    reflexivity.
  - destruct fuel as [|fuel]; [lia|]. simpl.
    unfold bind, time_Sleep, call. simpl.
    rewrite int64_elapsed by lia.
    replace (r + watchDuration >? maxProcessDuration) with false
      by (symmetry; rewrite Z.gtb_ltb; apply Z.ltb_ge; lia).
    simpl. rewrite I. simpl. rewrite R. simpl.
    rewrite IH by lia.
    unfold poll_rounds. simpl. now rewrite <- !app_assoc.
Qed.

Lemma always_running_keeps_running (containerID : string) :
  always_running client containerID ->
  forall (n : nat) (d : D), exists d', keeps_running client containerID n d d'.
Proof.
  intros Hr. induction n as [|n IH]; intros d.
  - exists d. constructor.
  - destruct (Hr (Sleep client watchDuration d)) as (c & d1 & I & R).
    destruct (IH d1) as (d' & K).
    exists d'. econstructor; eassumption.
Qed.

(** ** Provisioner: totality and the calls it makes *)

Lemma parseEnvsFromFiles_loop_keeps (files envs r : list string) :
  parseEnvsFromFiles_loop readLines files envs = Ok r -> r = envs.
Proof.
  revert envs. induction files as [|file rest IH]; intros envs; simpl.
  - now intros [= <-].
  - destruct (readLines file) as [lines|err]; [|discriminate].
    rewrite parseEnvSpecs_empty. rewrite app_nil_r. apply IH.
Qed.

Lemma buildContainer_config_Env (j : RunJob) (config : Config) :
  buildContainer_config GetArgs readLines j = Ok config -> Env config = [].
Proof.
  unfold buildContainer_config.
  destruct (negb (JobEnv j =? "")%string); rewrite ?parseEnvSpecs_empty; simpl.
  all: destruct (negb (EnvFiles j =? "")%string);
    [ unfold parseEnvsFromFiles;
      destruct (parseEnvsFromFiles_loop readLines (Split (EnvFiles j) ",") [])
        as [fs|err] eqn:F; [apply parseEnvsFromFiles_loop_keeps in F; subst fs|discriminate]
    | ].
  all: destruct (negb (Volumes j =? "")%string);
    [ destruct (parseVolumeSpec (Volumes j)); [|discriminate] | ].
  all: now intros [= <-].
Qed.

Lemma connectNetworks_runs (P : Call -> Prop) (c : Container)
    (networks : list Network) :
  (forall n, P (CallConnectNetwork n (ID c))) ->
  runs P (connectNetworks client c networks).
Proof.
  intros Pc. induction networks as [|network rest IH]; simpl.
  - apply runs_ret.
  - apply runs_bind; [now apply runs_call|].
    intros [err|]; [apply runs_ret|apply IH].
Qed.

Lemma buildContainer_runs (P : Call -> Prop) (j : RunJob) :
  (forall config, buildContainer_config GetArgs readLines j = Ok config ->
                  P (CallCreateContainer config)) ->
  P (CallFilteredListNetworks (JobNetwork j)) ->
  (forall n id, P (CallConnectNetwork n id)) ->
  runs P (buildContainer client GetArgs readLines j).
Proof.
  intros Pcreate Plist Pconn. unfold buildContainer.
  destruct (buildContainer_config GetArgs readLines j) as [config|err];
    [|apply runs_ret].
  apply runs_bind; [apply runs_call; now apply Pcreate|].
  intros [c|c err]; [|apply runs_ret].
  destruct (negb (JobNetwork j =? "")%string); [|apply runs_ret].
  apply runs_bind; [now apply runs_call|].
  intros [networks|err]; [|apply runs_ret].
  apply runs_bind; [now apply connectNetworks_runs|].
  intros [err|]; apply runs_ret.
Qed.

Lemma pullImage_runs (P : Call -> Prop) (j : RunJob) :
  P (CallPullImage (Image j)) -> runs P (pullImage client j).
Proof.
  intros Pp. unfold pullImage. apply runs_bind; [now apply runs_call|].
  intros [err|]; apply runs_ret.
Qed.

Lemma Run_provision_runs (P : Call -> Prop) (j : RunJob) :
  (forall c, is_provision c = true -> P c) ->
  runs P (Run_provision client GetArgs readLines j).
Proof.
  intros HP. unfold Run_provision.
  destruct (negb (Image j =? "")%string && (JobContainer j =? "")%string).
  - apply runs_bind; [apply pullImage_runs; now apply HP|].
    intros [err|]; [apply runs_ret|].
    apply runs_bind.
    + apply buildContainer_runs; intros; now apply HP.
    + intros [c|c err]; apply runs_ret.
  - apply runs_call. now apply HP.
Qed.

Lemma Run_supervise_runs (P : Call -> Prop) (j : RunJob) (c : Container) :
  (forall c, is_supervise c = true -> P c) ->
  runs P (Run_supervise client j c).
Proof.
  intros HP. unfold Run_supervise, startContainer.
  apply runs_bind; [apply runs_call; now apply HP|].
  intros [err|]; [apply runs_ret|].
  apply watchContainer_runs; now apply HP.
Qed.

Lemma no_remove (new : list Call) :
  Forall (fun c => is_remove c = false) new -> existsb is_remove new = false.
Proof.
  induction 1 as [|c l Hc _ IH]; simpl; [reflexivity|]. now rewrite Hc.
Qed.

(** ** The claims about the run *)

(** C3: a container that the poll loop sees stopped at its [n]-th inspect,
    before the ceiling, is classified by its exit code: [0] is no error
    (Succeeded), [-1] is [ErrUnexpected] (KilledOrUnexpected), any other
    code [n] is the error that carries [n] (FailedWithCode n). *)
Theorem watchContainer_classifies (j : RunJob) (containerID : string)
    (w : World D) (n : nat) (s : State) (d' : D) :
  stops_after client containerID n (engine w) s d' ->
  Z.of_nat n * watchDuration <= maxProcessDuration ->
  exists res,
    watchContainer client j containerID w
    = Some (res, {| engine := d';
                    calls := calls w ++ poll_rounds containerID n |})
    /\ outcome res = Some (spec_classify (ExitCode s))
    /\ (ExitCode s = 0 -> res = None)
    /\ (ExitCode s = -1 -> res = Some ErrUnexpected)
    /\ (ExitCode s <> 0 -> ExitCode s <> -1 ->
        res = Some (ErrNonZeroExitCode (ExitCode s))).
Proof.
  intros Hs Hn. exists (exitError s). split.
  - unfold watchContainer, bind. destruct w as [d cs]. simpl in Hs.
    rewrite (watchContainer_loop_stops _ _ _ _ _ Hs); simpl.
    + reflexivity.
    + pose proof max_polls_value as Mp. unfold watch_rounds.
      rewrite watchDuration_value, maxProcessDuration_value in Hn. lia.
    + lia.
    + lia.
  - unfold exitError. destruct (ExitCode s) as [|p|p]; simpl.
    + repeat split; try reflexivity; intros; congruence.
    + repeat split; try reflexivity; intros; congruence.
    + destruct p; simpl; repeat split; try reflexivity; intros; congruence.
Qed.

Lemma slept_poll_rounds (containerID : string) (n : nat) :
  slept (poll_rounds containerID n) = Z.of_nat n * watchDuration.
Proof.
  unfold poll_rounds. induction n as [|n IH].
  - reflexivity.
  - cbn [repeat List.concat app slept]. rewrite IH. lia.
Qed.

(** C4: on a container that is reported running at every inspect,
    [watchContainer] sleeps 100 ms before every inspect, inspects as long as
    the time slept does not exceed 24 hours, which is 864000 times, and
    returns [ErrMaxTimeRunning] (TimedOut) right after the sleep that takes
    the time slept over the ceiling, without another inspect. *)
Theorem watchContainer_times_out (j : RunJob) (containerID : string)
    (w : World D) (d' : D) :
  keeps_running client containerID max_polls (engine w) d' ->
  watchContainer client j containerID w
  = Some (Some ErrMaxTimeRunning,
          {| engine := Sleep client watchDuration d';
             calls := calls w ++ poll_rounds containerID max_polls
                              ++ [CallSleep watchDuration] |})
  /\ outcome (Some ErrMaxTimeRunning) = Some TimedOut
  /\ watchDuration = 100 * Millisecond
  /\ maxProcessDuration = 24 * Hour
  /\ Z.of_nat max_polls = 864000
  /\ slept (poll_rounds containerID max_polls) = maxProcessDuration
  /\ slept (poll_rounds containerID max_polls ++ [CallSleep watchDuration])
     = maxProcessDuration + watchDuration.
Proof.
  intros Hk. pose proof max_polls_value as Mp.
  pose proof watchDuration_value as W. pose proof maxProcessDuration_value as Mx.
  destruct w as [d cs]. simpl in Hk.
  split.
  { unfold watchContainer, bind.
    rewrite (watchContainer_loop_times_out _ _ _ _ Hk);
      [reflexivity|unfold watch_rounds; lia|lia|lia|lia]. }
  split; [reflexivity|].
  split; [exact W|].
  split; [exact Mx|].
  split; [exact Mp|].
  split.
  - rewrite slept_poll_rounds. lia.
  - assert (A : forall l, slept (l ++ [CallSleep watchDuration])
                          = slept l + watchDuration).
    { induction l as [|c l IH]; simpl; [lia|]. destruct c; rewrite IH; lia. }
    rewrite A, slept_poll_rounds. lia.
Qed.

Lemma not_removed_iff (new : list Call) (P : Prop) :
  existsb is_remove new = false -> ~ P ->
  (existsb is_remove new = true <-> P).
Proof.
  intros F N. rewrite F. split; [discriminate|intros H; contradiction].
Qed.

Lemma is_provision_not_remove (c : Call) :
  is_provision c = true -> is_remove c = false.
Proof. destruct c; simpl; congruence. Qed.

Lemma is_supervise_not_remove (c : Call) :
  is_supervise c = true -> is_remove c = false.
Proof. destruct c; simpl; congruence. Qed.

(** C5, amended: [Run] always returns, and it issues a remove exactly when
    provisioning, start and watch all returned without an error (the
    container was seen stopped with exit code 0), no container identifier
    was supplied and the delete flag is set.  So a container that was
    supplied by its identifier is never removed, whatever the flag, and no
    container is removed when the flag is unset. *)
Theorem Run_removes_iff (j : RunJob) (w : World D) :
  exists res w' new,
    Run client GetArgs readLines j w = Some (res, w')
    /\ calls w' = calls w ++ new
    /\ (existsb is_remove new = true
        <-> Run_succeeded client GetArgs readLines j w = true
            /\ JobContainer j = "" /\ Delete j = true).
Proof.
  unfold Run, Run_succeeded, bind.
  destruct (Run_provision_runs (fun c => is_remove c = false) j
              is_provision_not_remove w) as (p & w1 & n1 & E1 & C1 & F1).
  rewrite E1. destruct p as [container|err].
  2:{ exists (Some err), w1, n1.
      split; [reflexivity|]. split; [assumption|].
      apply not_removed_iff; [now apply no_remove|].
      intros [? _]. discriminate. }
  destruct (Run_supervise_runs (fun c => is_remove c = false) j container
              is_supervise_not_remove w1) as (serr & w2 & n2 & E2 & C2 & F2).
  rewrite E2.
  assert (F : existsb is_remove (n1 ++ n2) = false)
    by (apply no_remove, Forall_app; auto).
  assert (C : calls w2 = calls w ++ n1 ++ n2)
    by (rewrite C2, C1; now rewrite <- app_assoc).
  destruct serr as [err|].
  { exists (Some err), w2, (n1 ++ n2).
    split; [reflexivity|]. split; [assumption|].
    apply not_removed_iff; [assumption|].
    intros [? _]. discriminate. }
  destruct (JobContainer j =? "")%string eqn:EC.
  - apply String.eqb_eq in EC. unfold deleteContainer.
    destruct (Delete j) eqn:ED; simpl.
    + unfold call.
      destruct (RemoveContainer client
                  {| RemoveID := ID container; RemoveVolumes := false;
                     Force := false |} (engine w2)) as [r d].
      eexists r, _, (n1 ++ n2 ++ [CallRemoveContainer _]).
      split; [reflexivity|]. simpl. split.
      * rewrite C. now rewrite <- !app_assoc.
      * rewrite app_assoc, existsb_app. simpl. rewrite orb_true_r.
        split; auto.
    + exists None, w2, (n1 ++ n2).
      split; [reflexivity|]. split; [assumption|].
      apply not_removed_iff; [assumption|].
      intros (_ & _ & ?). discriminate.
  - apply String.eqb_neq in EC.
    exists None, w2, (n1 ++ n2).
    split; [reflexivity|]. split; [assumption|].
    apply not_removed_iff; [assumption|].
    intros (_ & ? & _). contradiction.
Qed.

(** C6, amended: when [deleteContainer] removes a container it makes one
    call, a remove whose options hold the container identifier and nothing
    else: [Force] and [RemoveVolumes] are false, the remove is not forced.
    It returns what the client answers and does not look at the state of
    the container. *)
Theorem deleteContainer_remove_options (j : RunJob) (containerID : string)
    (w : World D) :
  Delete j = true ->
  exists res d',
    RemoveContainer client
      {| RemoveID := containerID; RemoveVolumes := false; Force := false |}
      (engine w) = (res, d')
    /\ deleteContainer client j containerID w
       = Some (res,
               {| engine := d';
                  calls := calls w ++
                    [CallRemoveContainer
                       {| RemoveID := containerID; RemoveVolumes := false;
                          Force := false |}] |}).
Proof.
  intros HD. unfold deleteContainer, call. rewrite HD. simpl.
  destruct (RemoveContainer client _ (engine w)) as [res d'].
  exists res, d'. split; reflexivity.
Qed.

Lemma is_supervise_not_build (c : Call) :
  is_supervise c = true -> is_pull c = false /\ is_create c = false.
Proof. destruct c; simpl; intros; split; congruence. Qed.

(** C7, amended: for a job with neither an image nor a container
    identifier, [Run] pulls and creates nothing: its first call is an
    inspect of the empty identifier, and when that inspect fails [Run]
    returns its error without another call. *)
Theorem Run_neither_inspects_empty (j : RunJob) (w : World D) :
  Image j = "" ->
  JobContainer j = "" ->
  exists res w' rest,
    Run client GetArgs readLines j w = Some (res, w')
    /\ calls w' = calls w ++ CallInspectContainer "" :: rest
    /\ Forall (fun c => is_pull c = false /\ is_create c = false) rest
    /\ (forall err d,
          InspectContainer client "" (engine w) = (Err err, d) ->
          res = Some err /\ rest = [] /\ engine w' = d).
Proof.
  intros HI HC. unfold Run, Run_provision, getContainer.
  rewrite HI, HC. simpl. unfold bind at 1. unfold call at 1.
  destruct (InspectContainer client "" (engine w)) as [[container|err] d] eqn:EI.
  2:{ eexists (Some err), _, []. split; [reflexivity|]. simpl.
      repeat split; auto; congruence. }
  unfold bind.
  destruct (Run_supervise_runs _ j container is_supervise_not_build
              {| engine := d; calls := calls w ++ [CallInspectContainer ""] |})
    as (serr & w2 & n2 & E2 & C2 & F2).
  rewrite E2. simpl in C2. rewrite <- app_assoc in C2. simpl in C2.
  destruct serr as [err|].
  { exists (Some err), w2, n2. repeat split; auto; congruence. }
  unfold deleteContainer. destruct (Delete j); simpl.
  - unfold call. destruct (RemoveContainer client _ (engine w2)) as [r d2].
    eexists r, _, (n2 ++ [CallRemoveContainer _]).
    split; [reflexivity|]. simpl. split; [|split].
    + rewrite C2. rewrite <- app_assoc. reflexivity.
    + apply Forall_app. split; [assumption|]. constructor; auto.
    + intros err d0 [=].
  - exists None, w2, n2. repeat split; auto; congruence.
Qed.

Lemma connectNetworks_fails (c : Container) (networks : list Network) (d : D)
    (err : error) :
  connect_fails client (ID c) networks d err ->
  forall cs, exists w',
    connectNetworks client c networks {| engine := d; calls := cs |}
    = Some (Some err, w').
Proof.
  induction 1 as [network rest d err d' E|network rest d d' err E _ IH];
    intros cs; simpl; unfold bind, call; simpl; rewrite E.
  - eexists. reflexivity.
  - apply IH.
Qed.

(** C8: when the container was created and connecting it to one of the
    networks found under the configured name fails, [buildContainer] returns
    the error of the connection together with the created container, and has
    issued no remove: the creation is not rolled back. *)
Theorem buildContainer_connect_failure_keeps_container (j : RunJob)
    (w : World D) (config : Config) (c : Container) (d1 : D)
    (networks : list Network) (d2 : D) (err : error) :
  buildContainer_config GetArgs readLines j = Ok config ->
  CreateContainer client config (engine w) = (Returned c, d1) ->
  JobNetwork j <> "" ->
  FilteredListNetworks client (JobNetwork j) d1 = (Ok networks, d2) ->
  connect_fails client (ID c) networks d2 err ->
  exists w' new,
    buildContainer client GetArgs readLines j w
    = Some (Failed (Some c) (ErrConnectingNetwork err), w')
    /\ calls w' = calls w ++ new
    /\ existsb is_remove new = false.
Proof.
  intros Hcfg Hcreate Hnet Hlist Hfail.
  assert (E : exists w', buildContainer client GetArgs readLines j w
                         = Some (Failed (Some c) (ErrConnectingNetwork err), w')).
  { unfold buildContainer. rewrite Hcfg. unfold bind at 1. unfold call at 1.
    rewrite Hcreate. apply String.eqb_neq in Hnet. rewrite Hnet. simpl.
    unfold bind at 1. unfold call at 1. simpl. rewrite Hlist.
    unfold bind.
    destruct (connectNetworks_fails c networks d2 err Hfail
                ((calls w ++ [CallCreateContainer config])
                   ++ [CallFilteredListNetworks (JobNetwork j)])) as (w' & E).
    rewrite E. exists w'. reflexivity. }
  destruct E as (w' & E). exists w'.
  destruct (runs_inv (fun c => is_remove c = false) _ w _ w'
              (buildContainer_runs _ j (fun _ _ => eq_refl) eq_refl
                 (fun _ _ => eq_refl)) E) as (new & C & F).
  exists new. repeat split; auto using no_remove.
Qed.

(** C9: when a network name is configured and listing the networks of that
    name fails, [buildContainer] returns the created container and no
    error, having called only the creation and the listing: no connection
    is attempted and the failure of the listing is dropped. *)
Theorem buildContainer_ignores_list_failure (j : RunJob) (w : World D)
    (config : Config) (c : Container) (d1 : D) (err : error) (d2 : D) :
  buildContainer_config GetArgs readLines j = Ok config ->
  CreateContainer client config (engine w) = (Returned c, d1) ->
  JobNetwork j <> "" ->
  FilteredListNetworks client (JobNetwork j) d1 = (Err err, d2) ->
  buildContainer client GetArgs readLines j w
  = Some (Returned c,
          {| engine := d2;
             calls := calls w ++ [CallCreateContainer config;
                                  CallFilteredListNetworks (JobNetwork j)] |}).
Proof.
  intros Hcfg Hcreate Hnet Hlist.
  unfold buildContainer. rewrite Hcfg. unfold bind, call.
  rewrite Hcreate. apply String.eqb_neq in Hnet. rewrite Hnet. simpl.
  rewrite Hlist. unfold ret. now rewrite <- app_assoc.
Qed.

(** C10: [parseEnvSpecs] returns the empty list and no error on every
    input, and so every container that [buildContainer] creates is created
    with an empty environment. *)
Theorem parseEnvSpecs_always_empty :
  (forall envSpecs : list string, parseEnvSpecs envSpecs = Ok [])
  /\ (forall (j : RunJob) (w : World D),
        exists b w' new,
          buildContainer client GetArgs readLines j w = Some (b, w')
          /\ calls w' = calls w ++ new
          /\ forall config, In (CallCreateContainer config) new ->
                            Env config = []).
Proof.
  split; [apply parseEnvSpecs_empty|].
  intros j w.
  destruct (buildContainer_runs
              (fun c => forall config, c = CallCreateContainer config ->
                                       Env config = []) j) with (w := w)
    as (b & w' & new & E & C & F).
  - intros config Hc config' [= <-]. now apply buildContainer_config_Env in Hc.
  - discriminate.
  - discriminate.
  - exists b, w', new. repeat split; try assumption.
    intros config Hin. rewrite Forall_forall in F. now apply (F _ Hin).
Qed.

End Proofs.

(** ** The model at work *)

Example parseVolumeSpec_fixture :
  parseVolumeSpec "/data:/data,/another/path:/config"
  = Ok [{| From := "/data"; To := "/data" |};
        {| From := "/another/path"; To := "/config" |}].
Proof. reflexivity. Qed.

Example Run_happy :
  Run (scripted (happy 0)) words no_files job start_world
  = Some (None,
          {| engine := 300000000;
             calls := [CallPullImage "test-image";
                       CallCreateContainer
                         {| ConfigImage := "test-image"; AttachStdin := false;
                            AttachStdout := true; AttachStderr := true;
                            Tty := false; Cmd := ["echo"; "foo"];
                            ConfigUser := "root"; Env := []; Mounts := [] |};
                       CallStartContainer "c1";
                       CallSleep 100000000; CallInspectContainer "c1";
                       CallSleep 100000000; CallInspectContainer "c1";
                       CallSleep 100000000; CallInspectContainer "c1";
                       CallRemoveContainer
                         {| RemoveID := "c1"; RemoveVolumes := false;
                            Force := false |}] |}).
Proof. vm_compute. reflexivity. Qed.

Example Run_failed :
  Run (scripted (happy 7)) words no_files job start_world
  = Some (Some (ErrNonZeroExitCode 7),
          {| engine := 300000000;
             calls := [CallPullImage "test-image";
                       CallCreateContainer
                         {| ConfigImage := "test-image"; AttachStdin := false;
                            AttachStdout := true; AttachStderr := true;
                            Tty := false; Cmd := ["echo"; "foo"];
                            ConfigUser := "root"; Env := []; Mounts := [] |};
                       CallStartContainer "c1";
                       CallSleep 100000000; CallInspectContainer "c1";
                       CallSleep 100000000; CallInspectContainer "c1";
                       CallSleep 100000000; CallInspectContainer "c1"] |}).
Proof. vm_compute. reflexivity. Qed.

(** ** The claims at concrete runs *)

Lemma happy_stops_after (code : Z) :
  stops_after (scripted (happy code)) "c1" 3 0 (stopped code) 300000000.
Proof.
  refine (stops_later _ "c1" 2 0
            {| ID := "c1"; ContainerState := {| Running := true; ExitCode := 0 |} |}
            100000000 _ _ _ _ _).
  - vm_compute. reflexivity.
  - reflexivity.
  - refine (stops_later _ "c1" 1 100000000
              {| ID := "c1"; ContainerState := {| Running := true; ExitCode := 0 |} |}
              200000000 _ _ _ _ _).
    + vm_compute. reflexivity.
    + reflexivity.
    + refine (stops_now _ "c1" 200000000
                {| ID := "c1"; ContainerState := stopped code |} 300000000 _ _).
      * vm_compute. reflexivity.
      * reflexivity.
Defined.

Lemma watchContainer_classifies_witness :
  exists res,
    watchContainer (scripted (happy 7)) job "c1" start_world
    = Some (res, {| engine := 300000000;
                    calls := calls start_world ++ poll_rounds "c1" 3 |})
    /\ outcome res = Some (spec_classify 7)
    /\ (7 = 0 -> res = None)
    /\ (7 = -1 -> res = Some ErrUnexpected)
    /\ (7 <> 0 -> 7 <> -1 -> res = Some (ErrNonZeroExitCode 7)).
Proof.
  apply (watchContainer_classifies (scripted (happy 7)) job "c1" start_world 3
           (stopped 7) 300000000).
  - apply happy_stops_after.
  - vm_compute. discriminate.
Defined.

Lemma stuck_always_running : always_running (scripted stuck) "c1".
Proof. intros d. eexists _, d. split; reflexivity. Qed.

Lemma watchContainer_times_out_witness :
  exists d',
    keeps_running (scripted stuck) "c1" max_polls (engine start_world) d'
    /\ watchContainer (scripted stuck) job "c1" start_world
       = Some (Some ErrMaxTimeRunning,
               {| engine := Sleep (scripted stuck) watchDuration d';
                  calls := calls start_world ++ poll_rounds "c1" max_polls
                                   ++ [CallSleep watchDuration] |}).
Proof.
  destruct (always_running_keeps_running (scripted stuck) "c1"
              stuck_always_running max_polls (engine start_world)) as (d' & K).
  exists d'. split; [exact K|].
  exact (proj1 (watchContainer_times_out (scripted stuck) job "c1" start_world
                  d' K)).
Defined.

Lemma deleteContainer_remove_options_witness :
  Delete job = true
  /\ deleteContainer (scripted (happy 0)) job "c1" start_world
     = Some (None,
             {| engine := 0;
                calls := [CallRemoveContainer
                            {| RemoveID := "c1"; RemoveVolumes := false;
                               Force := false |}] |}).
Proof.
  split; [reflexivity|].
  destruct (deleteContainer_remove_options (scripted (happy 0)) job "c1"
              start_world eq_refl) as (res & d' & A & E).
  injection A as <- <-. exact E.
Defined.

Lemma Run_neither_inspects_empty_witness :
  Image job_neither = "" /\ JobContainer job_neither = ""
  /\ exists res w' rest,
       Run (scripted lost) words no_files job_neither start_world
       = Some (res, w')
       /\ calls w' = calls start_world ++ CallInspectContainer "" :: rest
       /\ Forall (fun c => is_pull c = false /\ is_create c = false) rest
       /\ (forall err d,
             InspectContainer (scripted lost) "" (engine start_world)
             = (Err err, d) ->
             res = Some err /\ rest = [] /\ engine w' = d).
Proof.
  split; [reflexivity|]. split; [reflexivity|].
  apply (Run_neither_inspects_empty (scripted lost) words no_files job_neither
           start_world); reflexivity.
Defined.

Lemma buildContainer_connect_failure_keeps_container_witness :
  exists w' new,
    buildContainer (scripted refusing) words no_files job_on_network start_world
    = Some (Failed (Some fresh)
              (ErrConnectingNetwork (ClientError "connection refused")), w')
    /\ calls w' = calls start_world ++ new
    /\ existsb is_remove new = false.
Proof.
  apply (buildContainer_connect_failure_keeps_container (scripted refusing)
           words no_files job_on_network start_world job_on_network_config
           fresh 0 [{| NetworkID := "n1" |}] 0).
  - reflexivity.
  - reflexivity.
  - discriminate.
  - reflexivity.
  - apply connect_fails_here with (d' := 0). reflexivity.
Defined.

Lemma buildContainer_ignores_list_failure_witness :
  buildContainer (scripted unlisted) words no_files job_on_network start_world
  = Some (Returned fresh,
          {| engine := 0;
             calls := [CallCreateContainer job_on_network_config;
                       CallFilteredListNetworks "foo"] |}).
Proof.
  apply (buildContainer_ignores_list_failure (scripted unlisted) words no_files
           job_on_network start_world job_on_network_config fresh 0
           (ClientError "cannot list networks") 0).
  - reflexivity.
  - reflexivity.
  - discriminate.
  - reflexivity.
Defined.

(** C2 as the specification words it fails at ["/data:"]: the entry has an
    empty container path, and [parseVolumeSpec] returns the mount. *)
Lemma parseVolumeSpec_accepts_empty_part :
  parseVolumeSpec "/data:" = Ok [{| From := "/data"; To := "" |}]
  /\ ~ rejects_unless_strict "/data:".
Proof.
  split; [reflexivity|].
  intros H. destruct H as [err E]; [reflexivity|discriminate].
Qed.

(** C5 as the specification words it fails at a run of a built container
    that exits with code 7: no identifier was supplied and the delete flag is
    set, and [Run] returns without a remove. *)
Lemma failed_run_is_not_reaped :
  JobContainer job = "" /\ Delete job = true
  /\ ~ reaps_iff_owned_and_delete (scripted (happy 7)) words no_files job
         start_world.
Proof.
  split; [reflexivity|]. split; [reflexivity|].
  intros H. specialize (H _ _ Run_failed).
  destruct H as [_ H]. specialize (H (conj eq_refl eq_refl)).
  vm_compute in H. discriminate.
Qed.

(** C6 as the specification words it fails at the removal of ["c1"]: the
    remove that is issued has [Force] unset. *)
Lemma remove_is_not_forced :
  ~ removes_forced (scripted (happy 0)) job "c1" start_world.
Proof.
  intros H.
  specialize (H None _ {| RemoveID := "c1"; RemoveVolumes := false;
                          Force := false |} eq_refl (or_introl eq_refl)).
  discriminate.
Qed.

(** C7 as the specification words it fails at [job_neither]: [Run] has
    called the client, with an inspect of the empty identifier, when it
    returns. *)
Lemma neither_is_not_rejected_early :
  Run (scripted lost) words no_files job_neither start_world
  = Some (Some (ClientError "No such container"),
          {| engine := 0; calls := [CallInspectContainer ""] |})
  /\ ~ rejects_before_any_call (scripted lost) words no_files job_neither
         start_world.
Proof.
  split; [reflexivity|].
  intros (err & w' & E & C). vm_compute in E. injection E as _ <-.
  discriminate.
Qed.

(** ** More on strings.Split *)

Lemma count_byte_app (c : ascii) (a b : string) :
  count_byte c (a ++ b)%string = (count_byte c a + count_byte c b)%nat.
Proof.
  induction a as [|x a IH]; simpl; [reflexivity|]. rewrite IH. lia.
Qed.

Lemma Split_no_sep (c : ascii) (s : string) :
  count_byte c s = 0%nat -> Split s c = [s].
Proof.
  induction s as [|x s IH]; simpl; [reflexivity|].
  destruct (Ascii.eqb x c); simpl; [discriminate|].
  intros H. now rewrite (IH H).
Qed.

Lemma Split_app (c : ascii) (a b : string) :
  Split (a ++ String c b)%string c = Split a c ++ Split b c.
Proof.
  induction a as [|x a IH]; simpl.
  - now rewrite Ascii.eqb_refl.
  - destruct (Ascii.eqb x c); [now rewrite IH|].
    rewrite IH. destruct (Split a c) as [|h t] eqn:E;
      [now apply Split_not_nil in E|reflexivity].
Qed.

Lemma Split_pieces (c : ascii) (s : string) :
  Forall (fun x => count_byte c x = 0%nat) (Split s c).
Proof.
  induction s as [|x s IH]; simpl.
  - repeat constructor.
  - destruct (Ascii.eqb x c) eqn:E.
    + constructor; [reflexivity|assumption].
    + destruct (Split s c) as [|h t]; [repeat constructor; simpl; now rewrite E|].
      inversion IH; subst. constructor; [simpl; rewrite E|]; assumption.
Qed.

Lemma Split_Join (c : ascii) (l : list string) :
  l <> [] ->
  Forall (fun x => count_byte c x = 0%nat) l ->
  Split (Join l c) c = l.
Proof.
  induction l as [|x l IH]; [congruence|]. intros _ F.
  inversion F as [|? ? Hx Hl]; subst.
  destruct l as [|y l].
  - simpl. now apply Split_no_sep.
  - change (Join (x :: y :: l) c) with (x ++ String c (Join (y :: l) c))%string.
    rewrite Split_app, (Split_no_sep _ _ Hx), IH; [reflexivity|discriminate|assumption].
Qed.

(** ** More on the spec parser *)

Lemma clean_path_counts (p : string) :
  clean_path p = true ->
  count_byte ":" p = 0%nat /\ count_byte "," p = 0%nat.
Proof.
  unfold clean_path. intros H. apply andb_prop in H. destruct H as [A B].
  split; now apply Nat.eqb_eq.
Qed.

Lemma parseVolumeSpec_loop_clean (volumes acc : list Volume) :
  Forall clean_volume volumes ->
  parseVolumeSpec_loop (map volume_entry volumes) acc = Ok (acc ++ volumes).
Proof.
  revert acc. induction volumes as [|v volumes IH]; intros acc F; simpl.
  - now rewrite app_nil_r.
  - inversion F as [|? ? [Hf Ht] Hr]; subst.
    apply clean_path_counts in Hf, Ht. destruct Hf as [Hf _], Ht as [Ht _].
    assert (S2 : Split (volume_entry v) ":" = [From v; To v]).
    { unfold volume_entry. rewrite Split_app.
      now rewrite (Split_no_sep _ _ Hf), (Split_no_sep _ _ Ht). }
    rewrite S2. simpl.
    rewrite (IH _ Hr). rewrite <- app_assoc. destruct v. reflexivity.
Qed.

(** X1: printing mounts whose paths hold no separator as [from:to] entries
    joined by [','] and parsing the result gives the mounts back. *)
Theorem parseVolumeSpec_round_trip (volumes : list Volume) :
  volumes <> [] ->
  Forall clean_volume volumes ->
  parseVolumeSpec (Join (map volume_entry volumes) ",") = Ok volumes.
Proof.
  intros Hne F. unfold parseVolumeSpec.
  rewrite Split_Join.
  - rewrite length_map. destruct volumes as [|v volumes]; [congruence|].
    simpl Nat.eqb. cbv iota. apply (parseVolumeSpec_loop_clean _ [] F).
  - destruct volumes; [congruence|discriminate].
  - apply Forall_map. eapply Forall_impl; [|exact F].
    intros v [Hf Ht]. apply clean_path_counts in Hf, Ht.
    unfold volume_entry. rewrite count_byte_app. simpl.
    destruct Hf as [_ ->], Ht as [_ ->]. reflexivity.
Qed.

Lemma parseVolumeSpec_Ok (s : string) (volumes : list Volume) :
  parseVolumeSpec s = Ok volumes ->
  map volume_entry volumes = Split s ","
  /\ Forall (fun e => count_byte ":" e = 1%nat) (Split s ",").
Proof.
  unfold parseVolumeSpec. rewrite Split_length. simpl. intros E.
  pose proof (parseVolumeSpec_loop_spec (Split s ",") []) as L.
  destruct (find (fun e => negb (entry_ok e)) (Split s ",")) as [e|] eqn:Fd.
  - rewrite L in E. discriminate.
  - destruct L as (vols & R & Mv). rewrite R in E. injection E as <-.
    split; [assumption|].
    apply Forall_forall. intros e He.
    pose proof (find_none _ _ Fd e He) as N. simpl in N.
    apply negb_false_iff in N. unfold entry_ok in N.
    rewrite Split_length in N. simpl in N. now apply Nat.eqb_eq.
Qed.

(** X2: what [parseVolumeSpec] returns has one mount for each
    comma-separated entry, so is never empty; no path in it holds a [':'] or
    a [',']; and printed back as [from:to] entries joined by [','] it is the
    specification that was parsed. *)
Theorem parseVolumeSpec_shape (volumeSpec : string) (volumes : list Volume) :
  parseVolumeSpec volumeSpec = Ok volumes ->
  List.length volumes = S (count_byte "," volumeSpec)
  /\ Forall clean_volume volumes
  /\ Join (map volume_entry volumes) "," = volumeSpec.
Proof.
  intros E. apply parseVolumeSpec_Ok in E. destruct E as [Mv Fc].
  split; [|split].
  - rewrite <- (Split_length "," volumeSpec), <- Mv. now rewrite length_map.
  - pose proof (Split_pieces "," volumeSpec) as P. rewrite <- Mv in P, Fc.
    rewrite Forall_map in P, Fc.
    apply Forall_forall. intros v Hv.
    rewrite Forall_forall in P, Fc. specialize (P v Hv). specialize (Fc v Hv).
    unfold volume_entry in P, Fc. rewrite count_byte_app in P, Fc.
    simpl in P, Fc. unfold clean_volume, clean_path.
    assert (count_byte ":" (From v) = 0 /\ count_byte ":" (To v) = 0
            /\ count_byte "," (From v) = 0 /\ count_byte "," (To v) = 0)%nat
      as (A & B & C & E) by lia.
    rewrite A, B, C, E. split; reflexivity.
  - rewrite Mv. apply Join_Split.
Qed.

(** X3: when [parseVolumeSpec] fails, the error names an entry of the
    specification that does not hold exactly one [':']; the error about comma
    separation is never returned. *)
Theorem parseVolumeSpec_error (volumeSpec : string) (err : error) :
  parseVolumeSpec volumeSpec = Err err ->
  exists e, err = ErrParsingVolumeSpec e
            /\ In e (Split volumeSpec ",")
            /\ count_byte ":" e <> 1%nat.
Proof.
  unfold parseVolumeSpec. rewrite Split_length. simpl. intros E.
  pose proof (parseVolumeSpec_loop_spec (Split volumeSpec ",") []) as L.
  destruct (find (fun e => negb (entry_ok e)) (Split volumeSpec ",")) as [e|] eqn:Fd.
  - rewrite L in E. injection E as <-. exists e.
    apply find_some in Fd. destruct Fd as [Hin N]. repeat split; auto.
    apply negb_true_iff in N. unfold entry_ok in N.
    rewrite Split_length in N. simpl in N. now apply Nat.eqb_neq.
  - destruct L as (vols & R & _). rewrite R in E. discriminate.
Qed.

(** X4: a specification with an empty entry (the empty specification, a
    leading, trailing or doubled comma) is rejected. *)
Theorem parseVolumeSpec_empty_entry (volumeSpec : string) :
  In "" (Split volumeSpec ",") ->
  exists e, parseVolumeSpec volumeSpec = Err (ErrParsingVolumeSpec e).
Proof.
  intros Hin. unfold parseVolumeSpec. rewrite Split_length. simpl.
  pose proof (parseVolumeSpec_loop_spec (Split volumeSpec ",") []) as L.
  destruct (find (fun e => negb (entry_ok e)) (Split volumeSpec ",")) as [e|] eqn:Fd.
  - now exists e.
  - pose proof (find_none _ _ Fd "" Hin) as N. discriminate.
Qed.

Section More.

Context {D : Type}.
Variable client : Client D.
Variable GetArgs : string -> list string.
Variable readLines : string -> result (list string).

(** ** Environment files *)

Lemma parseEnvsFromFiles_loop_readable (files envs : list string) :
  Forall (readable readLines) files ->
  parseEnvsFromFiles_loop readLines files envs = Ok envs.
Proof.
  revert envs. induction files as [|file rest IH]; intros envs F; simpl.
  - reflexivity.
  - inversion F as [|? ? [lines Hl] Hr]; subst. rewrite Hl.
    rewrite parseEnvSpecs_empty, app_nil_r. now apply IH.
Qed.

Lemma parseEnvsFromFiles_loop_unreadable (pre : list string) (file : string)
    (post envs : list string) (err : error) :
  Forall (readable readLines) pre ->
  readLines file = Err err ->
  parseEnvsFromFiles_loop readLines (pre ++ file :: post) envs = Err err.
Proof.
  revert envs. induction pre as [|f pre IH]; intros envs F E; simpl.
  - now rewrite E.
  - inversion F as [|? ? [lines Hl] Hr]; subst. rewrite Hl.
    rewrite parseEnvSpecs_empty, app_nil_r. now apply IH.
Qed.

(** X5: when every file of the list can be read, [parseEnvsFromFiles]
    returns the empty list, whatever the files hold. *)
Theorem parseEnvsFromFiles_readable (envFiles : string) :
  Forall (readable readLines) (Split envFiles ",") ->
  parseEnvsFromFiles readLines envFiles = Ok [].
Proof. apply parseEnvsFromFiles_loop_readable. Qed.

(** X6: [parseEnvsFromFiles] fails with the error of the first file of the
    list that cannot be read, as the file system gave it; the files after it
    do not matter. *)
Theorem parseEnvsFromFiles_first_unreadable (envFiles : string)
    (pre : list string) (file : string) (post : list string) (err : error) :
  Split envFiles "," = pre ++ file :: post ->
  Forall (readable readLines) pre ->
  readLines file = Err err ->
  parseEnvsFromFiles readLines envFiles = Err err.
Proof.
  intros S0 F E. unfold parseEnvsFromFiles. rewrite S0.
  now apply parseEnvsFromFiles_loop_unreadable.
Qed.

(** ** buildContainer *)

(** The inline environment plays no part in the configuration. *)
Lemma buildContainer_config_cases (j : RunJob) :
  buildContainer_config GetArgs readLines j
  = match (if negb (EnvFiles j =? "")%string
           then parseEnvsFromFiles readLines (EnvFiles j) else Ok []) with
    | Err err => Err (ErrParsingEnvFiles err)
    | Ok _ =>
        match (if negb (Volumes j =? "")%string
               then parseVolumeSpec (Volumes j) else Ok []) with
        | Err err => Err (ErrParsingVolumes err)
        | Ok volumes =>
            Ok {| ConfigImage := Image j;
                  AttachStdin := false;
                  AttachStdout := true;
                  AttachStderr := true;
                  Tty := TTY j;
                  Cmd := GetArgs (Command j);
                  ConfigUser := User j;
                  Env := [];
                  Mounts := map mount_of volumes |}
        end
    end.
Proof.
  unfold buildContainer_config.
  destruct (negb (JobEnv j =? "")%string); rewrite ?parseEnvSpecs_empty; simpl.
  all: destruct (negb (EnvFiles j =? "")%string);
    [ unfold parseEnvsFromFiles;
      destruct (parseEnvsFromFiles_loop readLines (Split (EnvFiles j) ",") [])
        as [fs|err] eqn:F;
      [apply parseEnvsFromFiles_loop_keeps in F; subst fs|reflexivity]
    | ].
  all: destruct (negb (Volumes j =? "")%string);
    [ destruct (parseVolumeSpec (Volumes j)); reflexivity | reflexivity ].
Qed.

(** X7: when one of the environment files cannot be read, [buildContainer]
    returns no container and the error of that file wrapped as an error of
    parsing the env files, and calls nothing: this comes before the volumes
    are looked at. *)
Theorem buildContainer_rejects_env_files (j : RunJob) (w : World D)
    (pre : list string) (file : string) (post : list string) (err : error) :
  EnvFiles j <> "" ->
  Split (EnvFiles j) "," = pre ++ file :: post ->
  Forall (readable readLines) pre ->
  readLines file = Err err ->
  buildContainer client GetArgs readLines j w
  = Some (Failed None (ErrParsingEnvFiles err), w).
Proof.
  intros Hne S0 F E. unfold buildContainer.
  rewrite buildContainer_config_cases.
  apply String.eqb_neq in Hne. rewrite Hne. simpl.
  unfold parseEnvsFromFiles. rewrite S0.
  now rewrite (parseEnvsFromFiles_loop_unreadable _ _ _ _ _ F E).
Qed.

(** X8: when the environment files can be read and the volume specification
    does not parse, [buildContainer] returns no container and the error of
    the parse wrapped as an error of parsing the volumes, and calls
    nothing. *)
Theorem buildContainer_rejects_volumes (j : RunJob) (w : World D)
    (err : error) :
  EnvFiles j = "" \/ Forall (readable readLines) (Split (EnvFiles j) ",") ->
  Volumes j <> "" ->
  parseVolumeSpec (Volumes j) = Err err ->
  buildContainer client GetArgs readLines j w
  = Some (Failed None (ErrParsingVolumes err), w).
Proof.
  intros Hf Hne E. unfold buildContainer.
  rewrite buildContainer_config_cases.
  apply String.eqb_neq in Hne. rewrite Hne, E. simpl.
  destruct Hf as [-> | Hf]; simpl; [reflexivity|].
  destruct (negb (EnvFiles j =? "")%string); [|reflexivity].
  unfold parseEnvsFromFiles.
  now rewrite (parseEnvsFromFiles_loop_readable _ _ Hf).
Qed.

Lemma buildContainer_config_Mounts (j : RunJob) (config : Config) :
  buildContainer_config GetArgs readLines j = Ok config ->
  ConfigImage config = Image j
  /\ AttachStdin config = false
  /\ AttachStdout config = true
  /\ AttachStderr config = true
  /\ Tty config = TTY j
  /\ ConfigUser config = User j
  /\ Cmd config = GetArgs (Command j)
  /\ Forall (fun m => RW m = true) (Mounts config)
  /\ (if (Volumes j =? "")%string then Mounts config = []
      else map mount_entry (Mounts config) = Split (Volumes j) ",").
Proof.
  rewrite buildContainer_config_cases.
  destruct (if negb (EnvFiles j =? "")%string
            then parseEnvsFromFiles readLines (EnvFiles j) else Ok [])
    as [fs|err]; [|discriminate].
  destruct (Volumes j =? "")%string eqn:EV; simpl.
  - intros [= <-]. simpl. repeat split. constructor.
  - destruct (parseVolumeSpec (Volumes j)) as [volumes|err] eqn:E;
      [|discriminate].
    intros [= <-]. simpl. repeat split.
    + apply Forall_map. apply Forall_forall. reflexivity.
    + rewrite map_map. apply parseVolumeSpec_Ok in E. apply E.
Qed.

(** X9: [buildContainer] always returns, and every container it creates is
    created from the image of the job, with its user, tty flag and tokenized
    command, stdin detached, stdout and stderr attached, and one read-write
    mount for each entry of the volume specification, in order (none without
    a specification). *)
Theorem buildContainer_creates_with (j : RunJob) (w : World D) :
  exists b w' new,
    buildContainer client GetArgs readLines j w = Some (b, w')
    /\ calls w' = calls w ++ new
    /\ forall config, In (CallCreateContainer config) new ->
         ConfigImage config = Image j
         /\ AttachStdin config = false
         /\ AttachStdout config = true
         /\ AttachStderr config = true
         /\ Tty config = TTY j
         /\ ConfigUser config = User j
         /\ Cmd config = GetArgs (Command j)
         /\ Forall (fun m => RW m = true) (Mounts config)
         /\ (if (Volumes j =? "")%string then Mounts config = []
             else map mount_entry (Mounts config) = Split (Volumes j) ",").
Proof.
  destruct (buildContainer_runs client GetArgs readLines
              (fun c => forall config, c = CallCreateContainer config ->
                 buildContainer_config GetArgs readLines j = Ok config) j)
    with (w := w) as (b & w' & new & E & C & F).
  - now intros config Hc config' [= <-].
  - discriminate.
  - discriminate.
  - exists b, w', new. split; [assumption|]. split; [assumption|].
    intros config Hin. rewrite Forall_forall in F.
    apply buildContainer_config_Mounts. now apply (F _ Hin).
Qed.

Lemma connectNetworks_all (c : Container) (networks : list Network)
    (d d' : D) :
  connects_all client (ID c) networks d d' ->
  forall cs,
    connectNetworks client c networks {| engine := d; calls := cs |}
    = Some (None,
            {| engine := d';
               calls := cs ++ map (fun n => CallConnectNetwork (NetworkID n) (ID c))
                                  networks |}).
Proof.
  induction 1 as [d|network rest d d1 d' E _ IH]; intros cs; simpl.
  - unfold ret. now rewrite app_nil_r.
  - unfold bind, call. simpl. rewrite E. rewrite IH.
    now rewrite <- app_assoc.
Qed.

(** X10: when the container is created and every connection succeeds,
    [buildContainer] returns the container without an error, having called
    the creation, the listing of the networks of the configured name, and
    one connection of the new container for each network listed, in the order
    of the listing. *)
Theorem buildContainer_connects_all (j : RunJob) (w : World D)
    (config : Config) (c : Container) (d1 : D) (networks : list Network)
    (d2 d3 : D) :
  buildContainer_config GetArgs readLines j = Ok config ->
  CreateContainer client config (engine w) = (Returned c, d1) ->
  JobNetwork j <> "" ->
  FilteredListNetworks client (JobNetwork j) d1 = (Ok networks, d2) ->
  connects_all client (ID c) networks d2 d3 ->
  buildContainer client GetArgs readLines j w
  = Some (Returned c,
          {| engine := d3;
             calls := calls w ++
               CallCreateContainer config
               :: CallFilteredListNetworks (JobNetwork j)
               :: map (fun n => CallConnectNetwork (NetworkID n) (ID c))
                      networks |}).
Proof.
  intros Hcfg Hcreate Hnet Hlist Hall.
  unfold buildContainer. rewrite Hcfg. unfold bind at 1. unfold call at 1.
  rewrite Hcreate. apply String.eqb_neq in Hnet. rewrite Hnet. simpl.
  unfold bind at 1. unfold call at 1. simpl. rewrite Hlist.
  unfold bind. rewrite (connectNetworks_all _ _ _ _ Hall).
  unfold ret. now rewrite <- !app_assoc.
Qed.

(** ** watchContainer *)

Lemma poll_rounds_S (containerID : string) (n : nat) :
  poll_rounds containerID (S n)
  = CallSleep watchDuration :: CallInspectContainer containerID
    :: poll_rounds containerID n.
Proof. reflexivity. Qed.

Lemma polled_step (containerID : string) (d : D) (left : Z) (c : Container)
    (d1 : D) (res : result State) (d' : D) (new : list Call) :
  InspectContainer client containerID (Sleep client watchDuration d) = (Ok c, d1) ->
  Running (ContainerState c) = true ->
  polled client containerID d1 (left - watchDuration) res d' new ->
  polled client containerID d left res d'
    (CallSleep watchDuration :: CallInspectContainer containerID :: new).
Proof.
  intros I R P. destruct P as [n s d' Hs Hn|m d2 err d' Hk Hm He|m d2 Hk Hm].
  - rewrite <- poll_rounds_S. apply polled_stopped.
    + eapply stops_later; eassumption.
    + lia.
  - rewrite <- poll_rounds_S. eapply polled_failed.
    + eapply keeps_running_S; eassumption.
    + lia.
    + assumption.
  - change (CallSleep watchDuration :: CallInspectContainer containerID
              :: poll_rounds containerID m ++ [CallSleep watchDuration])
      with (poll_rounds containerID (S m) ++ [CallSleep watchDuration]).
    apply polled_timed_out.
    + eapply keeps_running_S; eassumption.
    + lia.
Qed.

(** Whatever the engine does, the loop returns, and what it did is one of
    the three courses of [polled]. *)
Lemma watchContainer_loop_polled (containerID : string) :
  forall (fuel : nat) (r : Z) (d : D) (cs : list Call),
    0 <= r <= maxProcessDuration ->
    maxProcessDuration - r < Z.of_nat fuel * watchDuration ->
    exists res d' new,
      watchContainer_loop client fuel containerID r
        {| engine := d; calls := cs |}
      = Some (res, {| engine := d'; calls := cs ++ new |})
      /\ polled client containerID d (maxProcessDuration - r) res d' new.
Proof.
  pose proof watchDuration_value as W.
  induction fuel as [|fuel IH]; intros r d cs Hr Hf.
  - simpl in Hf. lia.
  - simpl. unfold bind, time_Sleep, call. simpl.
    rewrite int64_elapsed by assumption.
    destruct (r + watchDuration >? maxProcessDuration) eqn:G.
    + rewrite Z.gtb_ltb in G. apply Z.ltb_lt in G.
      eexists _, _, [CallSleep watchDuration]. split; [reflexivity|].
      apply (polled_timed_out client containerID d _ 0 d).
      * constructor.
      * lia.
    + rewrite Z.gtb_ltb in G. apply Z.ltb_ge in G. simpl.
      destruct (InspectContainer client containerID
                  (Sleep client watchDuration d)) as [[c|err] d1] eqn:I.
      * destruct (Running (ContainerState c)) eqn:R; simpl.
        -- destruct (IH (r + watchDuration) d1
                       ((cs ++ [CallSleep watchDuration])
                          ++ [CallInspectContainer containerID]))
             as (res & d' & new & E & P); [lia|lia|].
           exists res, d',
             (CallSleep watchDuration :: CallInspectContainer containerID :: new).
           split.
           ++ rewrite E. now rewrite <- !app_assoc.
           ++ eapply polled_step; try eassumption.
              replace (maxProcessDuration - r - watchDuration)
                with (maxProcessDuration - (r + watchDuration)) by lia.
              assumption.
        -- eexists _, _, (poll_rounds containerID 1). split.
           ++ unfold ret. now rewrite <- app_assoc.
           ++ apply polled_stopped; [|lia].
              now apply stops_now.
      * eexists _, _, (poll_rounds containerID 1). split.
        -- unfold ret. now rewrite <- app_assoc.
        -- eapply (polled_failed client containerID d _ 0 d).
           ++ constructor.
           ++ lia.
           ++ exact I.
Qed.

Lemma watchContainer_polled (j : RunJob) (containerID : string) (w : World D) :
  exists res d' new,
    watchContainer client j containerID w
    = Some (match res with Ok s => exitError s | Err err => Some err end,
            {| engine := d'; calls := calls w ++ new |})
    /\ polled client containerID (engine w) maxProcessDuration res d' new.
Proof.
  destruct w as [d cs].
  destruct (watchContainer_loop_polled containerID watch_rounds 0 d cs)
    as (res & d' & new & E & P).
  - rewrite maxProcessDuration_value. lia.
  - apply watch_rounds_enough.
  - exists res, d', new. split.
    + unfold watchContainer, bind. rewrite E. now destruct res.
    + now rewrite Z.sub_0_r in P.
Qed.

Lemma watchContainer_loop_inspect_error (containerID : string) (m : nat)
    (d d1 : D) :
  keeps_running client containerID m d d1 ->
  forall (err : error) (d' : D) (fuel : nat) (r : Z) (cs : list Call),
    InspectContainer client containerID (Sleep client watchDuration d1)
    = (Err err, d') ->
    (m < fuel)%nat ->
    0 <= r ->
    r + Z.of_nat (S m) * watchDuration <= maxProcessDuration ->
    watchContainer_loop client fuel containerID r {| engine := d; calls := cs |}
    = Some (Err err,
            {| engine := d'; calls := cs ++ poll_rounds containerID (S m) |}).
Proof.
  pose proof watchDuration_value as W.
  induction 1 as [d|m d c d1 d2 I R _ IH]; intros err d' fuel r cs E Hf Hr Hle.
  - destruct fuel as [|fuel]; [lia|]. simpl.
    unfold bind, time_Sleep, call. simpl.
    rewrite int64_elapsed by lia.
    replace (r + watchDuration >? maxProcessDuration) with false
      by (symmetry; rewrite Z.gtb_ltb; apply Z.ltb_ge; lia).
    simpl. rewrite E. unfold ret. now rewrite <- app_assoc.
  - destruct fuel as [|fuel]; [lia|]. simpl.
    unfold bind, time_Sleep, call. simpl.
    rewrite int64_elapsed by lia.
    replace (r + watchDuration >? maxProcessDuration) with false
      by (symmetry; rewrite Z.gtb_ltb; apply Z.ltb_ge; lia).
    simpl. rewrite I. simpl. rewrite R. simpl.
    rewrite (IH err d') by (assumption || lia).
    rewrite (poll_rounds_S containerID (S m)). now rewrite <- !app_assoc.
Qed.

(** X11: when an inspect fails while the container is being polled, after
    any number of inspects that found it running and before the ceiling,
    [watchContainer] returns the error of that inspect as it is, right away:
    the failed inspect is its last call and is not retried. *)
Theorem watchContainer_inspect_error (j : RunJob) (containerID : string)
    (w : World D) (m : nat) (d1 : D) (err : error) (d' : D) :
  keeps_running client containerID m (engine w) d1 ->
  InspectContainer client containerID (Sleep client watchDuration d1)
  = (Err err, d') ->
  Z.of_nat (S m) * watchDuration <= maxProcessDuration ->
  watchContainer client j containerID w
  = Some (Some err,
          {| engine := d';
             calls := calls w ++ poll_rounds containerID (S m) |}).
Proof.
  intros Hk E Hm. destruct w as [d cs]. simpl in Hk.
  unfold watchContainer, bind.
  rewrite (watchContainer_loop_inspect_error _ _ _ _ Hk err d');
    [reflexivity|assumption| |lia|lia].
  pose proof max_polls_value as Mp. unfold watch_rounds.
  rewrite watchDuration_value, maxProcessDuration_value in Hm. lia.
Qed.

Lemma inspects_poll_rounds (containerID : string) (n : nat) :
  inspects (poll_rounds containerID n) = n.
Proof.
  unfold inspects. induction n as [|n IH]; [reflexivity|].
  rewrite poll_rounds_S. simpl. now rewrite IH.
Qed.

Lemma inspects_app (a b : list Call) :
  inspects (a ++ b) = (inspects a + inspects b)%nat.
Proof. unfold inspects. now rewrite filter_app, length_app. Qed.

Lemma slept_app (a b : list Call) : slept (a ++ b) = slept a + slept b.
Proof.
  induction a as [|c a IH]; simpl; [reflexivity|]. destruct c; rewrite ?IH; lia.
Qed.

Lemma poll_rounds_calls (containerID : string) (n : nat) :
  Forall (fun c => c = CallSleep watchDuration
                   \/ c = CallInspectContainer containerID)
         (poll_rounds containerID n).
Proof.
  induction n as [|n IH]; [constructor|].
  rewrite poll_rounds_S.
  constructor; [now left|]. constructor; [now right|]. exact IH.
Qed.

(** X12: on every engine [watchContainer] returns.  Its calls are sleeps of
    100 ms and inspects of the container it watches, it sleeps before it
    inspects, it makes at most 864000 inspects, and the sleeps add up to at
    most 24 hours and 100 ms. *)
Theorem watchContainer_bounded (j : RunJob) (containerID : string)
    (w : World D) :
  exists res w' new,
    watchContainer client j containerID w = Some (res, w')
    /\ calls w' = calls w ++ CallSleep watchDuration :: new
    /\ Forall (fun c => c = CallSleep watchDuration
                        \/ c = CallInspectContainer containerID) new
    /\ Z.of_nat (inspects new) <= 864000
    /\ slept (CallSleep watchDuration :: new)
       <= maxProcessDuration + watchDuration.
Proof.
  pose proof watchDuration_value as W.
  pose proof maxProcessDuration_value as Mx.
  destruct (watchContainer_polled j containerID w) as (res & d' & new & E & P).
  assert (H : exists rest, new = CallSleep watchDuration :: rest
            /\ Forall (fun c => c = CallSleep watchDuration
                                \/ c = CallInspectContainer containerID) new
            /\ Z.of_nat (inspects new) <= 864000
            /\ slept new <= maxProcessDuration + watchDuration).
  { destruct P as [n s d' Hs Hn|m d2 err d' Hk Hm He|m d2 Hk Hm].
    - destruct n as [|n]; [inversion Hs|].
      eexists. split; [apply poll_rounds_S|].
      split; [apply poll_rounds_calls|].
      rewrite inspects_poll_rounds, slept_poll_rounds. lia.
    - eexists. split; [apply poll_rounds_S|].
      split; [apply poll_rounds_calls|].
      rewrite inspects_poll_rounds, slept_poll_rounds. lia.
    - split with (x := match m with
                       | O => []
                       | S m' => CallInspectContainer containerID
                                 :: poll_rounds containerID m'
                                 ++ [CallSleep watchDuration]
                       end).
      split; [now destruct m|].
      split; [apply Forall_app; split;
              [apply poll_rounds_calls|constructor; [now left|constructor]]|].
      rewrite inspects_app, inspects_poll_rounds, slept_app, slept_poll_rounds.
      change (inspects [CallSleep watchDuration]) with O.
      change (slept [CallSleep watchDuration]) with (watchDuration + 0).
      lia. }
  destruct H as (rest & -> & F & Hi & Hs).
  eexists _, _, rest. split; [exact E|]. split; [reflexivity|].
  split; [now inversion F|]. split; [exact Hi|exact Hs].
Qed.

Lemma exitError_None (s : State) : exitError s = None -> ExitCode s = 0.
Proof.
  unfold exitError. destruct (ExitCode s =? 0) eqn:E.
  - intros _. now apply Z.eqb_eq.
  - now destruct (ExitCode s =? -1).
Qed.

Lemma watchContainer_nil (j : RunJob) (containerID : string) (w w' : World D) :
  watchContainer client j containerID w = Some (None, w') ->
  exists n s,
    stops_after client containerID n (engine w) s (engine w')
    /\ ExitCode s = 0
    /\ Z.of_nat n <= 864000.
Proof.
  intros E.
  destruct (watchContainer_polled j containerID w) as (res & d' & new & E' & P).
  rewrite E in E'. injection E' as Hres ->.
  destruct P as [n s d' Hs Hn|m d2 err d' Hk Hm He|m d2 Hk Hm];
    try discriminate.
  exists n, s. simpl. split; [assumption|]. split.
  - now apply exitError_None.
  - rewrite watchDuration_value, maxProcessDuration_value in Hn. lia.
Qed.

(** ** Run *)

Lemma built_condition (j : RunJob) :
  Image j <> "" -> JobContainer j = "" ->
  negb (Image j =? "")%string && (JobContainer j =? "")%string = true.
Proof.
  intros HI HC. apply String.eqb_neq in HI. rewrite HI, HC. reflexivity.
Qed.

Lemma existing_condition (j : RunJob) :
  JobContainer j <> "" ->
  negb (Image j =? "")%string && (JobContainer j =? "")%string = false.
Proof.
  intros HC. apply String.eqb_neq in HC. rewrite HC. apply andb_false_r.
Qed.

(** X13: when the pull of the image fails, [Run] returns the error of
    pulling, which holds the image name and the cause, and the pull is the
    only call it has made: nothing is created. *)
Theorem Run_pull_failure (j : RunJob) (w : World D) (err : error) (d : D) :
  Image j <> "" ->
  JobContainer j = "" ->
  PullImage client (Image j) (engine w) = (Some err, d) ->
  Run client GetArgs readLines j w
  = Some (Some (ErrPullingImage (Image j) err),
          {| engine := d; calls := calls w ++ [CallPullImage (Image j)] |}).
Proof.
  intros HI HC HP. unfold Run, Run_provision.
  rewrite (built_condition j HI HC).
  unfold pullImage, bind, call. rewrite HP. reflexivity.
Qed.

(** X14: when the creation of the container fails, [Run] returns the error
    of creating, and the pull and the creation are the only calls it has
    made: nothing is started, and nothing is removed. *)
Theorem Run_create_failure (j : RunJob) (w : World D) (d1 : D)
    (config : Config) (c : option Container) (err : error) (d2 : D) :
  Image j <> "" ->
  JobContainer j = "" ->
  PullImage client (Image j) (engine w) = (None, d1) ->
  buildContainer_config GetArgs readLines j = Ok config ->
  CreateContainer client config d1 = (Failed c err, d2) ->
  Run client GetArgs readLines j w
  = Some (Some (ErrCreatingExec err),
          {| engine := d2;
             calls := calls w ++ [CallPullImage (Image j);
                                  CallCreateContainer config] |}).
Proof.
  intros HI HC HP Hcfg Hcr. unfold Run, Run_provision.
  rewrite (built_condition j HI HC).
  unfold pullImage, buildContainer, bind, call. rewrite HP. simpl.
  rewrite Hcfg. simpl. rewrite Hcr. unfold ret. now rewrite <- app_assoc.
Qed.

Lemma buildContainer_connect_failure (j : RunJob) (w : World D)
    (config : Config) (c : Container) (d1 : D) (networks : list Network)
    (d2 : D) (err : error) :
  buildContainer_config GetArgs readLines j = Ok config ->
  CreateContainer client config (engine w) = (Returned c, d1) ->
  JobNetwork j <> "" ->
  FilteredListNetworks client (JobNetwork j) d1 = (Ok networks, d2) ->
  connect_fails client (ID c) networks d2 err ->
  exists w',
    buildContainer client GetArgs readLines j w
    = Some (Failed (Some c) (ErrConnectingNetwork err), w').
Proof.
  intros Hcfg Hcreate Hnet Hlist Hfail.
  unfold buildContainer. rewrite Hcfg. unfold bind at 1. unfold call at 1.
  rewrite Hcreate. apply String.eqb_neq in Hnet. rewrite Hnet. simpl.
  unfold bind at 1. unfold call at 1. simpl. rewrite Hlist.
  unfold bind.
  destruct (connectNetworks_fails client c networks d2 err Hfail
              ((calls w ++ [CallCreateContainer config])
                 ++ [CallFilteredListNetworks (JobNetwork j)])) as (w' & E).
  rewrite E. exists w'. reflexivity.
Qed.

(** X15: when the container is created and connecting it to a network
    fails, [Run] returns the error of connecting and stops there: the
    container is neither started nor removed. *)
Theorem Run_connect_failure (j : RunJob) (w : World D) (d0 : D)
    (config : Config) (c : Container) (d1 : D) (networks : list Network)
    (d2 : D) (err : error) :
  Image j <> "" ->
  JobContainer j = "" ->
  PullImage client (Image j) (engine w) = (None, d0) ->
  buildContainer_config GetArgs readLines j = Ok config ->
  CreateContainer client config d0 = (Returned c, d1) ->
  JobNetwork j <> "" ->
  FilteredListNetworks client (JobNetwork j) d1 = (Ok networks, d2) ->
  connect_fails client (ID c) networks d2 err ->
  exists w' new,
    Run client GetArgs readLines j w
    = Some (Some (ErrConnectingNetwork err), w')
    /\ calls w' = calls w ++ new
    /\ Forall (fun x => is_provision x = true) new.
Proof.
  intros HI HC HP Hcfg Hcr Hnet Hlist Hfail.
  assert (E : exists w', Run_provision client GetArgs readLines j w
                         = Some (Err (ErrConnectingNetwork err), w')).
  { unfold Run_provision. rewrite (built_condition j HI HC).
    unfold pullImage. unfold bind at 1 2. unfold call at 1. rewrite HP.
    unfold ret at 1. unfold bind.
    destruct (buildContainer_connect_failure j
                {| engine := d0; calls := calls w ++ [CallPullImage (Image j)] |}
                config c d1 networks d2 err Hcfg Hcr Hnet Hlist Hfail)
      as (w' & E).
    rewrite E. exists w'. reflexivity. }
  destruct E as (w' & E).
  destruct (runs_inv (fun x => is_provision x = true) _ w _ w'
              (Run_provision_runs client GetArgs readLines _ j (fun _ H => H)) E)
    as (new & C & F).
  exists w', new. split; [|split; assumption].
  unfold Run, bind. rewrite E. reflexivity.
Qed.

(** X16: when the start of the container fails, [Run] returns the error of
    the start as it is, and the start is its last call: the container is
    not polled and not removed. *)
Theorem Run_start_failure (j : RunJob) (w : World D) (c : Container)
    (w1 : World D) (err : error) (d : D) :
  Run_provision client GetArgs readLines j w = Some (Ok c, w1) ->
  StartContainer client (ID c) (engine w1) = (Some err, d) ->
  Run client GetArgs readLines j w
  = Some (Some err,
          {| engine := d; calls := calls w1 ++ [CallStartContainer (ID c)] |}).
Proof.
  intros HP HS. unfold Run, bind. rewrite HP.
  unfold Run_supervise, startContainer, bind, call. rewrite HS. reflexivity.
Qed.

Lemma watchContainer_calls (j : RunJob) (containerID : string) :
  runs (fun x => x = CallSleep watchDuration
                 \/ x = CallInspectContainer containerID)
       (watchContainer client j containerID).
Proof. apply watchContainer_runs; auto. Qed.

(** X17: for a job on an existing container, [Run] first inspects the
    identifier it was given.  When that fails it returns the error and calls
    nothing else; otherwise it starts the container under the identifier
    that the inspect returned and then only sleeps and inspects that
    identifier: it pulls, creates, connects and removes nothing. *)
Theorem Run_existing_container (j : RunJob) (w : World D) :
  JobContainer j <> "" ->
  exists res w' rest,
    Run client GetArgs readLines j w = Some (res, w')
    /\ calls w' = calls w ++ CallInspectContainer (JobContainer j) :: rest
    /\ match InspectContainer client (JobContainer j) (engine w) with
       | (Err err, d) => res = Some err /\ rest = [] /\ engine w' = d
       | (Ok c, _) =>
           exists polls,
             rest = CallStartContainer (ID c) :: polls
             /\ Forall (fun x => x = CallSleep watchDuration
                                 \/ x = CallInspectContainer (ID c)) polls
       end.
Proof.
  intros HC. unfold Run, Run_provision. rewrite (existing_condition j HC).
  unfold getContainer. unfold bind at 1. unfold call at 1.
  destruct (InspectContainer client (JobContainer j) (engine w))
    as [[c|err] d].
  2:{ eexists (Some err), _, []. split; [reflexivity|]. simpl. auto. }
  unfold Run_supervise, startContainer. unfold bind at 1 2. unfold call at 1.
  simpl.
  destruct (StartContainer client (ID c) d) as [[err|] d2].
  { eexists (Some err), _, [CallStartContainer (ID c)].
    split; [reflexivity|]. simpl. split; [now rewrite <- app_assoc|].
    exists []. split; [reflexivity|constructor]. }
  unfold bind.
  destruct (watchContainer_calls j (ID c)
              {| engine := d2;
                 calls := (calls w ++ [CallInspectContainer (JobContainer j)])
                            ++ [CallStartContainer (ID c)] |})
    as (werr & w3 & polls & E & C & F).
  rewrite E. simpl in C.
  exists werr, w3, (CallStartContainer (ID c) :: polls).
  split.
  - destruct werr; [reflexivity|].
    apply String.eqb_neq in HC. now rewrite HC.
  - split; [rewrite C; now rewrite <- !app_assoc|].
    exists polls. split; [reflexivity|assumption].
Qed.

(** X18: for a job on an existing container, nothing but the container
    identifier matters: two jobs that name the same container run alike,
    whatever their image, command, user, tty and delete flags, network,
    volumes and environment are. *)
Theorem Run_only_container_matters (j j' : RunJob) (w : World D) :
  JobContainer j <> "" ->
  JobContainer j' = JobContainer j ->
  Run client GetArgs readLines j' w = Run client GetArgs readLines j w.
Proof.
  intros HC E. assert (HC' : JobContainer j' <> "") by now rewrite E.
  unfold Run, Run_provision.
  rewrite (existing_condition j HC), (existing_condition j' HC').
  apply String.eqb_neq in HC, HC'. rewrite HC, HC', E. reflexivity.
Qed.

(** X19: [Run] removes at most one container, and when it does the remove
    is its last call, is not forced, names the container that provisioning
    returned, and its result is what [Run] returns. *)
Theorem Run_remove_last (j : RunJob) (w : World D) :
  exists res w' new,
    Run client GetArgs readLines j w = Some (res, w')
    /\ calls w' = calls w ++ new
    /\ (existsb is_remove new = false
        \/ exists pre c w1 w2,
             new = pre ++ [CallRemoveContainer
                             {| RemoveID := ID c; RemoveVolumes := false;
                                Force := false |}]
             /\ existsb is_remove pre = false
             /\ Run_provision client GetArgs readLines j w = Some (Ok c, w1)
             /\ calls w2 = calls w ++ pre
             /\ RemoveContainer client
                  {| RemoveID := ID c; RemoveVolumes := false; Force := false |}
                  (engine w2) = (res, engine w')).
Proof.
  unfold Run, bind.
  destruct (Run_provision_runs client GetArgs readLines
              (fun c => is_remove c = false) j
              is_provision_not_remove w) as (p & w1 & n1 & E1 & C1 & F1).
  rewrite E1. destruct p as [container|err].
  2:{ exists (Some err), w1, n1.
      split; [reflexivity|]. split; [assumption|]. left. now apply no_remove. }
  destruct (Run_supervise_runs client (fun c => is_remove c = false) j container
              is_supervise_not_remove w1) as (serr & w2 & n2 & E2 & C2 & F2).
  rewrite E2.
  assert (F : existsb is_remove (n1 ++ n2) = false)
    by (apply no_remove, Forall_app; auto).
  assert (C : calls w2 = calls w ++ n1 ++ n2)
    by (rewrite C2, C1; now rewrite <- app_assoc).
  destruct serr as [err|].
  { exists (Some err), w2, (n1 ++ n2).
    split; [reflexivity|]. split; [assumption|]. now left. }
  destruct (JobContainer j =? "")%string.
  - unfold deleteContainer. destruct (Delete j); simpl.
    + unfold call.
      destruct (RemoveContainer client
                  {| RemoveID := ID container; RemoveVolumes := false;
                     Force := false |} (engine w2)) as [r d] eqn:ER.
      eexists r, _, ((n1 ++ n2) ++ [CallRemoveContainer _]).
      split; [reflexivity|]. simpl. split.
      * rewrite C. now rewrite <- !app_assoc.
      * right. exists (n1 ++ n2), container, w1, w2. auto.
    + exists None, w2, (n1 ++ n2).
      split; [reflexivity|]. split; [assumption|]. now left.
  - exists None, w2, (n1 ++ n2).
    split; [reflexivity|]. split; [assumption|]. now left.
Qed.

(** X20: [Run] returns no error only when provisioning returned a
    container, its start succeeded and an inspect, one of at most 864000,
    found it stopped with exit code 0. *)
Theorem Run_nil_sound (j : RunJob) (w w' : World D) :
  Run client GetArgs readLines j w = Some (None, w') ->
  exists c w1 d2 n s d3,
    Run_provision client GetArgs readLines j w = Some (Ok c, w1)
    /\ StartContainer client (ID c) (engine w1) = (None, d2)
    /\ stops_after client (ID c) n d2 s d3
    /\ ExitCode s = 0
    /\ Z.of_nat n <= 864000.
Proof.
  unfold Run, bind.
  destruct (Run_provision client GetArgs readLines j w)
    as [[[c|err] w1]|] eqn:EP; try discriminate.
  unfold Run_supervise, startContainer. unfold bind at 1. unfold call at 1.
  destruct (StartContainer client (ID c) (engine w1)) as [[err|] d2] eqn:ES;
    try discriminate.
  destruct (watchContainer client j (ID c)
              {| engine := d2; calls := calls w1 ++ [CallStartContainer (ID c)] |})
    as [[[err|] w3]|] eqn:EW; try discriminate.
  intros _. apply watchContainer_nil in EW.
  destruct EW as (n & s & Hs & H0 & Hn). simpl in Hs.
  exists c, w1, d2, n, s, (engine w3). auto.
Qed.

End More.

(** ** The further properties at concrete runs *)

Lemma parseVolumeSpec_round_trip_witness :
  parseVolumeSpec
    (Join (map volume_entry [{| From := "/data"; To := "/data" |};
                             {| From := "/a"; To := "/b" |}]) ",")
  = Ok [{| From := "/data"; To := "/data" |}; {| From := "/a"; To := "/b" |}].
Proof.
  apply parseVolumeSpec_round_trip; [discriminate|].
  constructor; [split; reflexivity|].
  constructor; [split; reflexivity|constructor].
Defined.

Lemma parseVolumeSpec_shape_witness :
  List.length [{| From := "/data"; To := "/data" |}; {| From := "/a"; To := "/b" |}]
  = S (count_byte "," "/data:/data,/a:/b")
  /\ Forall clean_volume
       [{| From := "/data"; To := "/data" |}; {| From := "/a"; To := "/b" |}]
  /\ Join (map volume_entry
             [{| From := "/data"; To := "/data" |}; {| From := "/a"; To := "/b" |}])
          "," = "/data:/data,/a:/b".
Proof.
  apply (parseVolumeSpec_shape "/data:/data,/a:/b"). reflexivity.
Defined.

Lemma parseVolumeSpec_error_witness :
  exists e, ErrParsingVolumeSpec "/config" = ErrParsingVolumeSpec e
            /\ In e (Split "/data:/data,/config" ",")
            /\ count_byte ":" e <> 1%nat.
Proof.
  apply (parseVolumeSpec_error "/data:/data,/config"). reflexivity.
Defined.

Lemma parseVolumeSpec_empty_entry_witness :
  exists e, parseVolumeSpec "/data:/data," = Err (ErrParsingVolumeSpec e).
Proof.
  apply parseVolumeSpec_empty_entry. right. left. reflexivity.
Defined.

Lemma parseEnvsFromFiles_readable_witness :
  parseEnvsFromFiles one_file "../common.env" = Ok [].
Proof.
  apply parseEnvsFromFiles_readable.
  constructor; [eexists; reflexivity|constructor].
Defined.

Lemma parseEnvsFromFiles_first_unreadable_witness :
  parseEnvsFromFiles one_file "../common.env,../another.env"
  = Err (FileError "../another.env").
Proof.
  apply (parseEnvsFromFiles_first_unreadable one_file _
           ["../common.env"] "../another.env" []).
  - reflexivity.
  - constructor; [eexists; reflexivity|constructor].
  - reflexivity.
Defined.

Lemma buildContainer_rejects_env_files_witness :
  buildContainer (scripted (happy 0)) words one_file job_bad_env_files
    start_world
  = Some (Failed None (ErrParsingEnvFiles (FileError "../another.env")),
          start_world).
Proof.
  apply (buildContainer_rejects_env_files (scripted (happy 0)) words one_file
           job_bad_env_files start_world ["../common.env"] "../another.env" []).
  - discriminate.
  - reflexivity.
  - constructor; [eexists; reflexivity|constructor].
  - reflexivity.
Defined.

Lemma buildContainer_rejects_volumes_witness :
  buildContainer (scripted (happy 0)) words one_file job_bad_volumes start_world
  = Some (Failed None (ErrParsingVolumes (ErrParsingVolumeSpec "/config")),
          start_world).
Proof.
  apply (buildContainer_rejects_volumes (scripted (happy 0)) words one_file
           job_bad_volumes start_world).
  - right. constructor; [eexists; reflexivity|constructor].
  - discriminate.
  - reflexivity.
Defined.

Lemma buildContainer_connects_all_witness :
  buildContainer (scripted (happy 0)) words no_files job_on_network start_world
  = Some (Returned fresh,
          {| engine := 0;
             calls := [CallCreateContainer job_on_network_config;
                       CallFilteredListNetworks "foo";
                       CallConnectNetwork "n1" "c1"] |}).
Proof.
  apply (buildContainer_connects_all (scripted (happy 0)) words no_files
           job_on_network start_world job_on_network_config fresh 0
           [{| NetworkID := "n1" |}] 0 0).
  - reflexivity.
  - reflexivity.
  - discriminate.
  - reflexivity.
  - apply connects_all_cons with (d1 := 0); [reflexivity|constructor].
Defined.

Lemma watchContainer_inspect_error_witness :
  watchContainer (scripted fading) job "c1" start_world
  = Some (Some (ClientError "connection lost"),
          {| engine := 200000000;
             calls := calls start_world ++ poll_rounds "c1" 2 |}).
Proof.
  apply (watchContainer_inspect_error (scripted fading) job "c1" start_world
           1 100000000).
  - refine (keeps_running_S _ "c1" 0 0
              {| ID := "c1";
                 ContainerState := {| Running := true; ExitCode := 0 |} |}
              100000000 100000000 _ _ _).
    + vm_compute. reflexivity.
    + reflexivity.
    + constructor.
  - vm_compute. reflexivity.
  - vm_compute. discriminate.
Defined.

Lemma Run_pull_failure_witness :
  Run (scripted unpullable) words no_files job start_world
  = Some (Some (ErrPullingImage "test-image" (ClientError "pull access denied")),
          {| engine := 0; calls := [CallPullImage "test-image"] |}).
Proof.
  apply (Run_pull_failure (scripted unpullable) words no_files job start_world).
  - discriminate.
  - reflexivity.
  - reflexivity.
Defined.

Lemma Run_create_failure_witness :
  Run (scripted uncreatable) words no_files job start_world
  = Some (Some (ErrCreatingExec (ClientError "no such image")),
          {| engine := 0;
             calls := [CallPullImage "test-image";
                       CallCreateContainer job_config] |}).
Proof.
  apply (Run_create_failure (scripted uncreatable) words no_files job
           start_world 0 job_config None).
  - discriminate.
  - reflexivity.
  - reflexivity.
  - reflexivity.
  - reflexivity.
Defined.

Lemma Run_connect_failure_witness :
  exists w' new,
    Run (scripted refusing) words no_files job_on_network start_world
    = Some (Some (ErrConnectingNetwork (ClientError "connection refused")), w')
    /\ calls w' = calls start_world ++ new
    /\ Forall (fun x => is_provision x = true) new.
Proof.
  apply (Run_connect_failure (scripted refusing) words no_files job_on_network
           start_world 0 job_on_network_config fresh 0
           [{| NetworkID := "n1" |}] 0).
  - discriminate.
  - reflexivity.
  - reflexivity.
  - reflexivity.
  - reflexivity.
  - discriminate.
  - reflexivity.
  - apply connect_fails_here with (d' := 0). reflexivity.
Defined.

Lemma Run_start_failure_witness :
  Run (scripted unstartable) words no_files job start_world
  = Some (Some (ClientError "cannot start"),
          {| engine := 0;
             calls := [CallPullImage "test-image";
                       CallCreateContainer job_config;
                       CallStartContainer "c1"] |}).
Proof.
  apply (Run_start_failure (scripted unstartable) words no_files job
           start_world fresh
           {| engine := 0;
              calls := [CallPullImage "test-image";
                        CallCreateContainer job_config] |}).
  - reflexivity.
  - reflexivity.
Defined.

Lemma Run_existing_container_witness :
  exists res w' rest,
    Run (scripted (happy 7)) words no_files job_existing start_world
    = Some (res, w')
    /\ calls w' = calls start_world ++ CallInspectContainer "c0" :: rest
    /\ exists polls,
         rest = CallStartContainer "c0" :: polls
         /\ Forall (fun x => x = CallSleep watchDuration
                             \/ x = CallInspectContainer "c0") polls.
Proof.
  apply (Run_existing_container (scripted (happy 7)) words no_files
           job_existing start_world).
  discriminate.
Defined.

Lemma Run_only_container_matters_witness :
  Run (scripted (happy 7)) words no_files job_existing' start_world
  = Run (scripted (happy 7)) words no_files job_existing start_world.
Proof.
  apply Run_only_container_matters; [discriminate|reflexivity].
Defined.

Lemma Run_nil_sound_witness :
  exists c w1 d2 n s d3,
    Run_provision (scripted (happy 0)) words no_files job start_world
    = Some (Ok c, w1)
    /\ StartContainer (scripted (happy 0)) (ID c) (engine w1) = (None, d2)
    /\ stops_after (scripted (happy 0)) (ID c) n d2 s d3
    /\ ExitCode s = 0
    /\ Z.of_nat n <= 864000.
Proof.
  eapply Run_nil_sound. apply Run_happy.
Defined.
